(** * Dashboard.jsx: layout diffing, filter-change re-querying, unload guard

    A shallow embedding of the [Dashboard] React component
    (superset/assets/src/dashboard/components/Dashboard.jsx).

    - JavaScript objects are association lists whose order is the
      [Object.keys] enumeration order; a property read that finds nothing
      is [None] (the value [undefined]).
    - Methods run in a small state-and-exception monad over a [World]
      holding the instance field [this.appliedFilters], the log of calls
      made on [this.props.actions], and the listeners of [window].
    - The helpers the component imports from other files of the repository
      ([getChartIdsFromLayout], [getLayoutComponentFromChartId],
      [safeStringify]) are fields of the class [Imports]; every theorem is
      stated for an arbitrary instance. *)

From Stdlib Require Import List String Ascii ZArith Bool Arith Lia DecimalString.
From Stdlib Require Import Permutation DecimalZ DecimalPos.
Import ListNotations.

Set Implicit Arguments.

(* ------------------------------------------------------------------ *)
(** ** JavaScript values and objects *)

Module JS.

(** An object with own enumerable string-keyed properties, listed in
    [Object.keys] order. *)
Definition Obj (V : Type) : Type := list (string * V).

Definition keys {V} (o : Obj V) : list string := map fst o.

Definition values {V} (o : Obj V) : list V := map snd o.

(** [o[k]]; [None] is [undefined]. *)
Fixpoint get {V} (o : Obj V) (k : string) : option V :=
  match o with
  | [] => None
  | (k', v) :: rest => if String.eqb k k' then Some v else get rest k
  end.

(** Keys of an object are pairwise distinct. *)
Definition wf {V} (o : Obj V) : Prop := NoDup (keys o).

(** [String(n)] for an integral number [n]. *)
Definition String_ (n : Z) : string := NilZero.string_of_int (Z.to_int n).

(** [Array.prototype.includes] on arrays of integral numbers and of
    strings. *)
Definition includesZ (arr : list Z) (x : Z) : bool := existsb (Z.eqb x) arr.

Definition includes (arr : list string) (x : string) : bool :=
  existsb (String.eqb x) arr.

(** [arr.indexOf(x) === -1] on arrays of integral numbers. *)
Definition notIndexed (arr : list Z) (x : Z) : bool := negb (includesZ arr x).

(** Truthiness of a value that is [null] or a string: only [null] and the
    empty string are falsy. *)
Definition truthy (s : option string) : bool :=
  match s with
  | None => false
  | Some k => negb (String.eqb k EmptyString)
  end.

(** [a === b] where [a] is a string and [b] is [null] or a string. *)
Definition strictEq (a : string) (b : option string) : bool :=
  match b with
  | None => false
  | Some k => String.eqb a k
  end.

Inductive Error : Type :=
| TypeError.

(** How a statement list ends: normally with a value, or by a throw. *)
Inductive Completion (A : Type) : Type :=
| Normal (a : A)
| Throw (e : Error).

Arguments Normal {A} a.
Arguments Throw {A} e.

(** Computations over a mutable state [S] that may throw; the effects made
    before a throw stay. *)
Definition M (S A : Type) : Type := S -> Completion A * S.

Definition ret {S A} (a : A) : M S A := fun s => (Normal a, s).

Definition throw {S A} (e : Error) : M S A := fun s => (Throw e, s).

Definition bind {S A B} (m : M S A) (f : A -> M S B) : M S B :=
  fun s =>
    match m s with
    | (Normal a, s') => f a s'
    | (Throw e, s') => (Throw e, s')
    end.

Definition modify {S} (f : S -> S) : M S unit := fun s => (Normal tt, f s).

Definition read {S A} (f : S -> A) : M S A := fun s => (Normal (f s), s).

(** Reading a property or calling a method of [undefined] throws. *)
Definition defined {S A} (o : option A) : M S A :=
  match o with
  | Some a => ret a
  | None => throw TypeError
  end.

Declare Scope js_scope.
Delimit Scope js_scope with js.

Notation "x <- c1 ;; c2" := (bind c1 (fun x => c2))
  (at level 61, c1 at next level, right associativity) : js_scope.
Notation "c1 ;; c2" := (bind c1 (fun _ => c2))
  (at level 61, right associativity) : js_scope.

(** [arr.forEach(callback)]. *)
Fixpoint forEach {S A} (arr : list A) (callback : A -> M S unit) : M S unit :=
  match arr with
  | [] => ret tt
  | x :: rest => bind (callback x) (fun _ => forEach rest callback)
  end.

End JS.

Import JS.
Local Open Scope js_scope.
Local Open Scope string_scope.

(* ------------------------------------------------------------------ *)
(** ** Filter state *)

(** A selected value: a scalar or an array of scalars. *)
Inductive Scalar : Type :=
| SNull
| SBool (b : bool)
| SNum (n : Z)
| SStr (s : string).

Inductive FilterValue : Type :=
| VScalar (x : Scalar)
| VArray (xs : list Scalar).

(** Field name to selected values, for one filter key. *)
Definition FieldMap : Type := Obj FilterValue.

(** [props.filters]: filter key to its field map. *)
Definition FilterState : Type := Obj FieldMap.

Definition Scalar_eqb (a b : Scalar) : bool :=
  match a, b with
  | SNull, SNull => true
  | SBool x, SBool y => Bool.eqb x y
  | SNum x, SNum y => Z.eqb x y
  | SStr x, SStr y => String.eqb x y
  | _, _ => false
  end.

Fixpoint Scalars_eqb (xs ys : list Scalar) : bool :=
  match xs, ys with
  | [], [] => true
  | x :: xs', y :: ys' => Scalar_eqb x y && Scalars_eqb xs' ys'
  | _, _ => false
  end.

Definition FilterValue_eqb (a b : FilterValue) : bool :=
  match a, b with
  | VScalar x, VScalar y => Scalar_eqb x y
  | VArray xs, VArray ys => Scalars_eqb xs ys
  | _, _ => false
  end.

(** Modelled from the spec: [areObjectsEqual] of reduxUtils is not among the
    sources; the spec describes it as "a structural-equality comparator
    over arbitrary nested mapping/sequence data", with key insertion order
    irrelevant.  Two field maps are equal when they have the same number
    of keys and every key of the first is a key of the second with an
    equal value; sequences are compared position by position. *)
Definition areObjectsEqual (obj1 obj2 : FieldMap) : bool :=
  Nat.eqb (List.length obj1) (List.length obj2) &&
  forallb (fun kv : string * FilterValue =>
             match get obj2 (fst kv) with
             | Some v' => FilterValue_eqb (snd kv) v'
             | None => false
             end) obj1.

(** Structural equality of the spec: equal as nested key/value mappings. *)
Definition sameFieldMap (a b : FieldMap) : Prop :=
  forall k, get a k = get b k.

Definition sameFilterState (a b : FilterState) : Prop :=
  forall k,
    match get a k, get b k with
    | Some x, Some y => sameFieldMap x y
    | None, None => True
    | _, _ => False
    end.

(** Both levels of a filter state have pairwise distinct keys. *)
Definition wfFilterState (f : FilterState) : Prop :=
  wf f /\ Forall (fun kv => wf (snd kv)) f.

(** The function-valued properties a plain object inherits from
    [Object.prototype]. *)
Definition inheritedMethods : list string :=
  ["constructor"; "hasOwnProperty"; "isPrototypeOf"; "propertyIsEnumerable";
   "toLocaleString"; "toString"; "valueOf"; "__defineGetter__";
   "__defineSetter__"; "__lookupGetter__"; "__lookupSetter__"].

(** What [o[k]] gives for a plain object [o], read through the prototype
    chain: an own property; for [__proto__], [Object.prototype] itself; for
    the name of a method of [Object.prototype], that function; otherwise
    [undefined].  The component's other reads go by [get]: the key is an
    own key ([filters[key]] in the loop), or the text of a number
    ([filterImmuneSliceFields[chart.id]]), or what is found is only asked
    for its keys ([filters[filterKey]] in [refreshExcept], where an
    inherited function or [Object.prototype] has none, like the empty list
    taken for [undefined]). *)
Inductive Read (V : Type) : Type :=
| Own (v : V)
| ObjectPrototype
| InheritedFunction
| Undefined.

Arguments Own {V} v.
Arguments ObjectPrototype {V}.
Arguments InheritedFunction {V}.
Arguments Undefined {V}.

Definition lookup {V} (o : Obj V) (k : string) : Read V :=
  match get o k with
  | Some v => Own v
  | None =>
      if String.eqb k "__proto__" then ObjectPrototype
      else if includes inheritedMethods k then InheritedFunction
      else Undefined
  end.

(* ------------------------------------------------------------------ *)
(** ** Props, actions and the world the component acts on *)

Record DashboardState : Type := {
  hasUnsavedChanges : bool;
  editMode : bool
}.

(** [dashboardInfo.metadata]; a field that is absent is [None]. *)
Record Metadata : Type := {
  filterImmuneSlices : option (list Z);
  filterImmuneSliceFields : option (Obj (list string))
}.

Record DashboardInfo : Type := {
  metadata : Metadata
}.

Record Chart : Type := {
  id : Z
}.

(** The functions [Dashboard.jsx] imports from files that are not among the
    sources. *)
Class Imports : Type := {
  Layout : Type;
  Component : Type;
  getChartIdsFromLayout : Layout -> list Z;
  getLayoutComponentFromChartId : Layout -> Z -> Component;
  safeStringify : FilterState -> string;
  LOG_ACTIONS_MOUNT_DASHBOARD : string
}.

Record Props {I : Imports} : Type := {
  dashboardState : DashboardState;
  dashboardInfo : DashboardInfo;
  charts : Obj Chart;
  filters : FilterState;
  layout : Layout
}.

(** A call made on [this.props.actions]. *)
Inductive Action {I : Imports} : Type :=
| addSliceToDashboard (chartId : Z) (component : Component)
| removeSliceFromDashboard (chartId : Z)
| triggerQuery (force : bool) (chartId : Z)
| logEvent (eventName : string).

(** Identity of a listener function. *)
Inductive Listener : Type :=
| Dashboard_unload
| otherListener (n : nat).

Definition Listener_eqb (a b : Listener) : bool :=
  match a, b with
  | Dashboard_unload, Dashboard_unload => true
  | otherListener n, otherListener m => Nat.eqb n m
  | _, _ => false
  end.

Definition Registration : Type := (string * Listener)%type.

Definition Registration_eqb (a b : Registration) : bool :=
  String.eqb (fst a) (fst b) && Listener_eqb (snd a) (snd b).

Record World {I : Imports} : Type := {
  appliedFilters : FilterState;        (* this.appliedFilters *)
  dispatched : list Action;            (* calls on props.actions, oldest first *)
  listeners : list Registration        (* event listener list of window *)
}.

(* ------------------------------------------------------------------ *)
(** ** The event listener list of [window] *)

(** [window.addEventListener(type, listener)]: a registration that is
    already in the list is not added again. *)
Definition addEventListener (type : string) (listener : Listener)
    (l : list Registration) : list Registration :=
  if existsb (Registration_eqb (type, listener)) l
  then l
  else l ++ [(type, listener)].

(** [window.removeEventListener(type, listener)]: the matching registration,
    if there is one, leaves the list. *)
Fixpoint removeEventListener (type : string) (listener : Listener)
    (l : list Registration) : list Registration :=
  match l with
  | [] => []
  | r :: rest =>
      if Registration_eqb (type, listener) r
      then rest
      else r :: removeEventListener type listener rest
  end.

(* ------------------------------------------------------------------ *)
(** ** The component *)

Section Dashboard.

Context {I : Imports}.

Definition Js : Type -> Type := M World.

(** A call [this.props.actions.f(...)]. *)
Definition call (a : Action) : Js unit :=
  modify (fun w => {| appliedFilters := appliedFilters w;
                      dispatched := dispatched w ++ [a];
                      listeners := listeners w |}).

Definition window_update (f : list Registration -> list Registration) : Js unit :=
  modify (fun w => {| appliedFilters := appliedFilters w;
                      dispatched := dispatched w;
                      listeners := f (listeners w) |}).

(** [this.appliedFilters = value]. *)
Definition set_appliedFilters (value : FilterState) : Js unit :=
  modify (fun w => {| appliedFilters := value;
                      dispatched := dispatched w;
                      listeners := listeners w |}).

(** [static onBeforeUnload(hasChanged)]. *)
Definition onBeforeUnload (hasChanged : bool) : Js unit :=
  if hasChanged
  then window_update (addEventListener "beforeunload" Dashboard_unload)
  else window_update (removeEventListener "beforeunload" Dashboard_unload).

(** [constructor(props)]: the world a fresh component starts in. *)
Definition constructor (l : list Registration) : World :=
  {| appliedFilters := []; dispatched := []; listeners := l |}.

(** [componentDidMount()]. *)
Definition componentDidMount : Js unit :=
  call (logEvent LOG_ACTIONS_MOUNT_DASHBOARD).

(** [componentWillReceiveProps(nextProps)]. *)
Definition componentWillReceiveProps (props nextProps : Props) : Js unit :=
  let currentChartIds := getChartIdsFromLayout (layout props) in
  let nextChartIds := getChartIdsFromLayout (layout nextProps) in
  if (List.length currentChartIds <? List.length nextChartIds)%nat then
    let newChartIds := filter (notIndexed currentChartIds) nextChartIds in
    forEach newChartIds (fun newChartId =>
      call (addSliceToDashboard newChartId
              (getLayoutComponentFromChartId (layout nextProps) newChartId)))
  else if (List.length nextChartIds <? List.length currentChartIds)%nat then
    let removedChartIds := filter (notIndexed nextChartIds) currentChartIds in
    forEach removedChartIds (fun removedChartId =>
      call (removeSliceFromDashboard removedChartId))
  else ret tt.

(** [getAllCharts()]. *)
Definition getAllCharts (props : Props) : list Chart :=
  values (charts props).

(** [refreshExcept(filterKey)]. *)
Definition refreshExcept (props : Props) (filterKey : option string) : Js unit :=
  let filters := filters props in
  let currentFilteredNames :=
    match (if truthy filterKey
           then match filterKey with Some k => get filters k | None => None end
           else None) with
    | Some fields => keys fields
    | None => []
    end in
  let filterImmuneSlices := filterImmuneSlices (metadata (dashboardInfo props)) in
  let filterImmuneSliceFields :=
    filterImmuneSliceFields (metadata (dashboardInfo props)) in
  forEach (getAllCharts props) (fun chart =>
    skip <- (if strictEq (String_ (id chart)) filterKey
             then ret true
             else immune <- defined filterImmuneSlices ;;
                  ret (includesZ immune (id chart))) ;;
    if skip : bool then ret tt
    else
      immuneFields <- defined filterImmuneSliceFields ;;
      let filterImmuneSliceFieldsNames :=
        match get immuneFields (String_ (id chart)) with
        | Some names => names
        | None => []
        end in
      if Nat.eqb (List.length currentFilteredNames) 0
         || existsb (fun name => negb (includes filterImmuneSliceFieldsNames name))
                    currentFilteredNames
      then call (triggerQuery true (id chart))
      else ret tt).

(** The test of the loop over [currFilterKeys]: the filter was added or
    changed.  [appliedFilters[key]] is read through the prototype chain:
    [typeof] gives ['undefined'] only when nothing is found there either;
    an inherited method is a function, never equal to a field map;
    [Object.prototype], found for [__proto__], has no enumerable property
    of its own and compares as the empty field map.  [key] is an own key
    of [filters], so [filters[key]] is its own value (the other case does
    not arise in the loop and counts as a change). *)
Definition addedOrChanged (appliedFilters filters : FilterState)
    (key : string) : bool :=
  match lookup appliedFilters key with
  | Undefined => true
  | InheritedFunction => true
  | ObjectPrototype =>
      match get filters key with
      | Some current => negb (areObjectsEqual [] current)
      | None => true
      end
  | Own applied =>
      match get filters key with
      | Some current => negb (areObjectsEqual applied current)
      | None => true
      end
  end.

(** [componentDidUpdate()]. *)
Definition componentDidUpdate (props : Props) : Js unit :=
  let hasUnsavedChanges := hasUnsavedChanges (dashboardState props) in
  let editMode := editMode (dashboardState props) in
  appliedFilters <- read appliedFilters ;;
  let filters := filters props in
  (if negb editMode
      && negb (String.eqb (safeStringify appliedFilters) (safeStringify filters))
   then
     let currFilterKeys := keys filters in
     let appliedFilterKeys := keys appliedFilters in
     let changedFilterKey :=
       fold_left (fun changedFilterKey key =>
                    if addedOrChanged appliedFilters filters key
                    then Some key
                    else changedFilterKey)
                 currFilterKeys None in
     if truthy changedFilterKey
        || negb (Nat.eqb (List.length currFilterKeys) (List.length appliedFilterKeys))
     then refreshExcept props changedFilterKey ;;
          set_appliedFilters filters
     else ret tt
   else ret tt) ;;
  if hasUnsavedChanges
  then onBeforeUnload true
  else onBeforeUnload false.

End Dashboard.

(* ------------------------------------------------------------------ *)
(** ** A concrete instance of the imported helpers *)

Module Sample.

Definition dquote : string := String (ascii_of_nat 34) EmptyString.

Definition backslash : string := String (ascii_of_nat 92) EmptyString.

Fixpoint escape (s : string) : string :=
  match s with
  | EmptyString => EmptyString
  | String c rest =>
      if Ascii.eqb c (ascii_of_nat 34) || Ascii.eqb c (ascii_of_nat 92)
      then backslash ++ String c (escape rest)
      else String c (escape rest)
  end.

Definition quote (s : string) : string := dquote ++ escape s ++ dquote.

Fixpoint join (sep : string) (l : list string) : string :=
  match l with
  | [] => EmptyString
  | [x] => x
  | x :: rest => x ++ sep ++ join sep rest
  end.

Definition stringifyScalar (x : Scalar) : string :=
  match x with
  | SNull => "null"
  | SBool true => "true"
  | SBool false => "false"
  | SNum n => String_ n
  | SStr s => quote s
  end.

Definition stringifyValue (v : FilterValue) : string :=
  match v with
  | VScalar x => stringifyScalar x
  | VArray xs => "[" ++ join "," (map stringifyScalar xs) ++ "]"
  end.

Definition stringifyObj {V} (f : V -> string) (o : Obj V) : string :=
  "{" ++ join "," (map (fun kv => quote (fst kv) ++ ":" ++ f (snd kv)) o) ++ "}".

(** Modelled from the spec: [safeStringify] of utils/safeStringify is not
    among the sources, and the spec only asks of the guard built on it
    that structurally equal filter states do nothing.  This instance
    writes a filter state as JSON text, keys in enumeration order. *)
Definition stringify (f : FilterState) : string :=
  stringifyObj (stringifyObj stringifyValue) f.

(** Modelled from the spec: the layout tree is "a hierarchical structure
    mapping layout-node ids to node descriptors; a subset of nodes
    reference chart identifiers". *)
Record Node : Type := {
  type : string;
  chartId : option Z
}.

Definition LayoutTree : Type := Obj Node.

(** Modelled from the spec: [getChartIdsFromLayout] of
    util/getChartIdsFromLayout is not among the sources; it "extracts
    chart identifiers from a layout tree", giving "the ordered sequence of
    chart identifiers present". *)
Definition chartIds (l : LayoutTree) : list Z :=
  flat_map (fun n => match chartId n with Some c => [c] | None => [] end)
           (values l).

(** Modelled from the spec: [getLayoutComponentFromChartId] of
    util/getLayoutComponentFromChartId is not among the sources; it gives
    the "layout node descriptor" of a chart id. *)
Definition componentOf (l : LayoutTree) (c : Z) : option Node :=
  find (fun n => match chartId n with Some c' => Z.eqb c c' | None => false end)
       (values l).

Definition imports : Imports := {|
  Layout := LayoutTree;
  Component := option Node;
  getChartIdsFromLayout := chartIds;
  getLayoutComponentFromChartId := componentOf;
  safeStringify := stringify;
  LOG_ACTIONS_MOUNT_DASHBOARD := "mount_dashboard"
|}.

Definition chartNode (c : Z) : Node := {| type := "CHART"; chartId := Some c |}.

Definition rowNode : Node := {| type := "ROW"; chartId := None |}.

(** Three charts, keyed by their ids. *)
Definition charts123 : Obj Chart :=
  [("1", {| id := 1 |}); ("2", {| id := 2 |}); ("3", {| id := 3 |})].

(** [{"10": {"region": ["US"]}}]. *)
Definition filters10 : FilterState :=
  [("10", [("region", VArray [SStr "US"])])].

(** [filterImmuneSlices = [3]], [filterImmuneSliceFields = {2: ["region"]}]. *)
Definition metadata3 : Metadata := {|
  filterImmuneSlices := Some [3%Z];
  filterImmuneSliceFields := Some [("2", ["region"])]
|}.

Definition noImmune : Metadata := {|
  filterImmuneSlices := Some [];
  filterImmuneSliceFields := Some []
|}.

Definition absent : Metadata := {|
  filterImmuneSlices := None;
  filterImmuneSliceFields := None
|}.

(** [{"10": {"region": ["US"]}, "11": {"country": ["FR"]}}]. *)
Definition filters10_11 : FilterState :=
  [("10", [("region", VArray [SStr "US"])]);
   ("11", [("country", VArray [SStr "FR"])])].


(** The same filter state written with its field names in two orders. *)
Definition filtersAB : FilterState :=
  [("10", [("a", VScalar (SNum 1)); ("b", VScalar (SNum 2))])].

Definition filtersBA : FilterState :=
  [("10", [("b", VScalar (SNum 2)); ("a", VScalar (SNum 1))])].

Definition layout1 : LayoutTree := [("ROW-1", rowNode); ("CHART-a", chartNode 1)].

Definition layout2 : LayoutTree := [("ROW-1", rowNode); ("CHART-b", chartNode 2)].

Definition layout123 : LayoutTree :=
  [("ROW-1", rowNode); ("CHART-a", chartNode 1); ("CHART-b", chartNode 2);
   ("CHART-c", chartNode 3)].

Definition layout21 : LayoutTree :=
  [("CHART-b", chartNode 2); ("ROW-1", rowNode); ("CHART-a", chartNode 1)].

Definition layout12 : LayoutTree :=
  [("ROW-1", rowNode); ("CHART-a", chartNode 1); ("CHART-b", chartNode 2)].

(** Chart 2 is immune to the field [region], no chart is immune to all. *)
Definition metadataRegion : Metadata := {|
  filterImmuneSlices := Some [];
  filterImmuneSliceFields := Some [("2", ["region"])]
|}.

(** Only [filterImmuneSliceFields] is absent. *)
Definition absentFields : Metadata := {|
  filterImmuneSlices := Some [3%Z];
  filterImmuneSliceFields := None
|}.

(** The filter of chart 2 on the field [region]. *)
Definition filters2 : FilterState :=
  [("2", [("region", VArray [SStr "US"])])].

(** No chart is immune, and [filterImmuneSliceFields] is absent. *)
Definition noImmuneNoFields : Metadata := {|
  filterImmuneSlices := Some [];
  filterImmuneSliceFields := None
|}.



(** Charts 10 and 11: with the key ["10"] the first is the chart of the
    filter. *)
Definition charts10_11 : Obj Chart :=
  [("10", {| id := 10 |}); ("11", {| id := 11 |})].




Definition mkProps (edit : bool) (m : Metadata) (c : Obj Chart)
    (f : FilterState) (l : LayoutTree) : @Props imports :=
  @Build_Props imports
    {| hasUnsavedChanges := false; editMode := edit |}
    {| metadata := m |} c f l.


Definition unsaved (p : @Props imports) : @Props imports :=
  @Build_Props imports
    {| hasUnsavedChanges := true; editMode := editMode (dashboardState p) |}
    (dashboardInfo p) (charts p) (filters p) (layout p).

Definition world (applied : FilterState) : @World imports :=
  {| appliedFilters := applied; dispatched := []; listeners := [] |}.

End Sample.

(** Closes goals [NoDup l] for a list of literals. *)
Ltac distinct := repeat constructor; cbn; intuition (try discriminate; try lia).

(* ------------------------------------------------------------------ *)
(** ** What an event does, as seen from outside *)

Local Open Scope list_scope.

Section Observations.

Context {I : Imports}.

(** The world [w] after the calls [acts] on [props.actions]. *)
Definition logged (w : World) (acts : list Action) : World :=
  {| appliedFilters := appliedFilters w;
     dispatched := dispatched w ++ acts;
     listeners := listeners w |}.

(** The re-query request [refreshExcept] makes for a chart. *)
Definition query (c : Chart) : Action := triggerQuery true (id c).

(** The calls on [props.actions] made while [m] runs from [w]. *)
Definition issued (m : Js unit) (w : World) : list Action :=
  skipn (List.length (dispatched w)) (dispatched (snd (m w))).

Definition isQueryFor (c : Z) (a : Action) : bool :=
  match a with
  | triggerQuery _ c' => Z.eqb c c'
  | _ => false
  end.

Definition isAttachFor (c : Z) (a : Action) : bool :=
  match a with
  | addSliceToDashboard c' _ => Z.eqb c c'
  | _ => false
  end.

Definition isDetachFor (c : Z) (a : Action) : bool :=
  match a with
  | removeSliceFromDashboard c' => Z.eqb c c'
  | _ => false
  end.

(** Number of re-query requests, attach events and detach events for
    chart [c] among [acts]. *)
Definition requeries (acts : list Action) (c : Z) : nat :=
  List.length (filter (isQueryFor c) acts).

Definition attaches (acts : list Action) (c : Z) : nat :=
  List.length (filter (isAttachFor c) acts).

Definition detaches (acts : list Action) (c : Z) : nat :=
  List.length (filter (isDetachFor c) acts).

(** Occurrences of [c] in a list of chart ids. *)
Definition occurrences (c : Z) (l : list Z) : nat :=
  List.length (filter (Z.eqb c) l).

(** The value of [changedFilterKey] after the loop of
    [componentDidUpdate]. *)
Definition changedFilterKey (appliedFilters filters : FilterState)
    : option string :=
  fold_left (fun changedFilterKey key =>
               if addedOrChanged appliedFilters filters key
               then Some key
               else changedFilterKey)
            (keys filters) None.

(** The keys of the current filters that are new or deeply different, in
    enumeration order. *)
Definition changedKeys (appliedFilters filters : FilterState) : list string :=
  filter (addedOrChanged appliedFilters filters) (keys filters).

Fixpoint lastKey (l : list string) : option string :=
  match l with
  | [] => None
  | [k] => Some k
  | _ :: rest => lastKey rest
  end.

(** The reconciler decides to evaluate re-queries: both guards of
    [componentDidUpdate] pass. *)
Definition evaluates (props : Props) (applied : FilterState) : bool :=
  negb (editMode (dashboardState props))
  && negb (String.eqb (safeStringify applied) (safeStringify (filters props)))
  && (truthy (changedFilterKey applied (filters props))
      || negb (Nat.eqb (List.length (keys (filters props)))
                       (List.length (keys applied)))).

(** The per-chart evaluation runs to its end. *)
Definition completes (props : Props) (filterKey : option string)
    (w : World) : bool :=
  match fst (refreshExcept props filterKey w) with
  | Normal _ => true
  | Throw _ => false
  end.

(** The per-chart test of [refreshExcept] when both immune-slice fields
    of the metadata are present: the chart is neither the source of the
    filter nor immune, and some affected field is not immune for it. *)
Definition requeried (filterKey : option string) (names : list string)
    (immune : list Z) (immuneFields : Obj (list string)) (chart : Chart)
    : bool :=
  negb (strictEq (String_ (id chart)) filterKey)
  && negb (includesZ immune (id chart))
  && (Nat.eqb (List.length names) 0
      || existsb (fun name =>
                    negb (includes
                            match get immuneFields (String_ (id chart)) with
                            | Some l => l
                            | None => []
                            end name))
                 names).

(** The field names [refreshExcept] compares with the immune fields. *)
Definition currentFilteredNames (filters : FilterState)
    (filterKey : option string) : list string :=
  match (if truthy filterKey
         then match filterKey with Some k => get filters k | None => None end
         else None) with
  | Some fields => keys fields
  | None => []
  end.

(** The layout-diff property as the spec words it: one detach event per
    id only in the previous layout, one attach event per id only in the
    next layout. *)
Definition diffEmitsBoth (props nextProps : Props) (w : World) : Prop :=
  let cur := getChartIdsFromLayout (layout props) in
  let nxt := getChartIdsFromLayout (layout nextProps) in
  let acts := issued (componentWillReceiveProps props nextProps) w in
  forall c,
    (In c cur -> ~ In c nxt -> detaches acts c = 1%nat) /\
    (In c nxt -> ~ In c cur -> attaches acts c = 1%nat).

(** The registration the unload guard adds and removes. *)
Definition guard : Registration := ("beforeunload", Dashboard_unload).

(** The chart is one [refreshExcept] re-queries: both immune-slice fields
    of the metadata are there and the chart passes the per-chart test. *)
Definition passes (props : Props) (filterKey : option string)
    (chart : Chart) : Prop :=
  exists immune immuneFields,
    filterImmuneSlices (metadata (dashboardInfo props)) = Some immune
    /\ filterImmuneSliceFields (metadata (dashboardInfo props))
       = Some immuneFields
    /\ requeried filterKey (currentFilteredNames (filters props) filterKey)
         immune immuneFields chart = true.

(** An event of the layout diff that answers a real difference: an attach
    of an id only the next layout has, with the component the next layout
    gives it, or a detach of an id only the previous layout has. *)
Definition genuine (props nextProps : Props) (a : Action) : Prop :=
  let cur := getChartIdsFromLayout (layout props) in
  let nxt := getChartIdsFromLayout (layout nextProps) in
  match a with
  | addSliceToDashboard c component =>
      In c nxt /\ ~ In c cur
      /\ component = getLayoutComponentFromChartId (layout nextProps) c
  | removeSliceFromDashboard c => In c cur /\ ~ In c nxt
  | _ => False
  end.

(** The names [filterImmuneSliceFields] gives for a chart id, none when it
    has no entry. *)
Definition immuneNames (immuneFields : Obj (list string)) (c : Z)
    : list string :=
  match get immuneFields (String_ c) with
  | Some names => names
  | None => []
  end.

(** The key [k] of the current filters is new or deeply different: the
    applied filters have no field map for it, or one that is not
    structurally equal to the current one. *)
Definition newOrDifferent (applied current : FilterState) (k : string)
    : Prop :=
  exists fields,
    get current k = Some fields
    /\ match get applied k with
       | None => True
       | Some before => ~ sameFieldMap before fields
       end.



(** The baseline property as it is worded: when a changed key or a
    difference in the number of keys is there to detect and edit mode is
    off, the baseline after the update is the current filter state; in
    every other case it is the baseline from before. *)
Definition baselineFollowsDetection (props : Props) (w : World) : Prop :=
  let detected :=
    editMode (dashboardState props) = false
    /\ ((exists k, newOrDifferent (appliedFilters w) (filters props) k)
        \/ List.length (keys (filters props))
           <> List.length (keys (appliedFilters w))) in
  (detected ->
   appliedFilters (snd (componentDidUpdate props w)) = filters props)
  /\ (~ detected ->
      appliedFilters (snd (componentDidUpdate props w)) = appliedFilters w).

(** Every chart of the chart set gets a re-query request. *)
Definition allChartsRequeried (props : Props) (w : World) : Prop :=
  forall c, In c (getAllCharts props) ->
    (1 <= requeries (issued (componentDidUpdate props) w) (id c))%nat.

End Observations.

(* ------------------------------------------------------------------ *)
(** ** Running the monad *)

Section MonadFacts.

Context {I : Imports}.

Lemma bind_normal {A B} (m : Js A) (f : A -> Js B) w a w' :
  m w = (Normal a, w') -> bind m f w = f a w'.
Proof. intros E. unfold bind. now rewrite E. Qed.

Lemma bind_throw {A B} (m : Js A) (f : A -> Js B) w e w' :
  m w = (Throw e, w') -> bind m f w = (Throw e, w').
Proof. intros E. unfold bind. now rewrite E. Qed.

Lemma logged_nil w : logged w [] = w.
Proof. destruct w; unfold logged; cbn. now rewrite app_nil_r. Qed.

Lemma logged_app w a b : logged (logged w a) b = logged w (a ++ b).
Proof. unfold logged; cbn. now rewrite app_assoc. Qed.

Lemma call_logged a w : call a w = (Normal tt, logged w [a]).
Proof. reflexivity. Qed.

Lemma forEach_call {A} (f : A -> Action) (l : list A) w :
  forEach l (fun x => call (f x)) w = (Normal tt, logged w (map f l)).
Proof.
  revert w. induction l as [|x l IH]; intros w; cbn [forEach map].
  - unfold ret. now rewrite logged_nil.
  - rewrite (bind_normal _ _ _ (call_logged (f x) w)), IH, logged_app.
    reflexivity.
Qed.

Lemma issued_app (m : Js unit) w acts :
  dispatched (snd (m w)) = dispatched w ++ acts -> issued m w = acts.
Proof.
  intros E. unfold issued. rewrite E.
  rewrite skipn_app, skipn_all, Nat.sub_diag. reflexivity.
Qed.

Lemma issued_logged (m : Js unit) w r acts :
  m w = (r, logged w acts) -> issued m w = acts.
Proof. intros E. apply issued_app. now rewrite E. Qed.

End MonadFacts.

(* ------------------------------------------------------------------ *)
(** ** The unload guard *)

Section UnloadGuard.

Context {I : Imports}.

Lemma Listener_eqb_eq a b : Listener_eqb a b = true <-> a = b.
Proof.
  destruct a, b; cbn; try (split; congruence).
  rewrite Nat.eqb_eq. split; congruence.
Qed.

Lemma Registration_eqb_eq a b : Registration_eqb a b = true <-> a = b.
Proof.
  destruct a as [t l], b as [t' l']. unfold Registration_eqb. cbn.
  rewrite andb_true_iff, String.eqb_eq, Listener_eqb_eq.
  split; [intros [-> ->]; reflexivity | intros E; inversion E; auto].
Qed.

Lemma existsb_Registration r l :
  ~ In r l -> existsb (Registration_eqb r) l = false.
Proof.
  intros N. destruct (existsb (Registration_eqb r) l) eqn:E; [|reflexivity].
  apply existsb_exists in E. destruct E as [x [Hx Ex]].
  apply Registration_eqb_eq in Ex. subst x. contradiction.
Qed.

Lemma remove_after_add type listener l :
  ~ In (type, listener) l ->
  removeEventListener type listener (addEventListener type listener l) = l.
Proof.
  intros N. unfold addEventListener.
  rewrite (existsb_Registration _ _ N).
  induction l as [|r l IH]; cbn.
  - replace (Registration_eqb (type, listener) (type, listener)) with true;
      [reflexivity|].
    symmetry. now apply Registration_eqb_eq.
  - destruct (Registration_eqb (type, listener) r) eqn:E.
    + apply Registration_eqb_eq in E. subst r. exfalso. apply N. now left.
    + f_equal. apply IH. intros HIn. apply N. now right.
Qed.

(** Removing a listener that is not registered changes nothing. *)
Lemma remove_absent type listener l :
  ~ In (type, listener) l -> removeEventListener type listener l = l.
Proof.
  induction l as [|r l IH]; cbn; intros N; [reflexivity|].
  destruct (Registration_eqb (type, listener) r) eqn:E.
  - apply Registration_eqb_eq in E. subst r. exfalso. apply N. now left.
  - f_equal. apply IH. intros HIn. apply N. now right.
Qed.

(** C9. Starting from a world in which the navigation-confirmation
    handler [Dashboard.unload] is not registered for [beforeunload],
    invoking the unload guard with [true] and then with [false] gives back
    the same world: registering followed by deregistering is the identity
    on the handler-registration state, and no handler is left. *)
Theorem onBeforeUnload_true_then_false (w : World) :
  ~ In ("beforeunload", Dashboard_unload) (listeners w) ->
  (onBeforeUnload true ;; onBeforeUnload false) w = (Normal tt, w)
  /\ ~ In ("beforeunload", Dashboard_unload)
          (listeners (snd ((onBeforeUnload true ;; onBeforeUnload false) w))).
Proof.
  intros N.
  assert (E : (onBeforeUnload true ;; onBeforeUnload false) w = (Normal tt, w)).
  { unfold bind, onBeforeUnload, window_update, modify. cbn.
    rewrite (remove_after_add _ _ _ N). now destruct w. }
  split; [exact E | now rewrite E].
Qed.

End UnloadGuard.

(* ------------------------------------------------------------------ *)
(** ** The layout diff *)

Section LayoutDiff.

Context {I : Imports}.

Lemma occurrences_filter p c l :
  occurrences c (filter p l) = if p c then occurrences c l else 0%nat.
Proof.
  unfold occurrences. induction l as [|x l IH]; cbn.
  - now destruct (p c).
  - destruct (p x) eqn:Px; cbn; destruct (Z.eqb_spec c x) as [->|Ne]; cbn.
    + rewrite IH, Px. reflexivity.
    + exact IH.
    + rewrite IH, Px. reflexivity.
    + exact IH.
Qed.

Lemma occurrences_absent c l : includesZ l c = false -> occurrences c l = 0%nat.
Proof.
  unfold occurrences, includesZ. induction l as [|x l IH]; cbn; [reflexivity|].
  destruct (Z.eqb c x); cbn; [discriminate|exact IH].
Qed.

Lemma includesZ_In l c : includesZ l c = true <-> In c l.
Proof.
  unfold includesZ. rewrite existsb_exists. split.
  - intros [x [Hx E]]. apply Z.eqb_eq in E. now subst.
  - intros H. exists c. split; [assumption|apply Z.eqb_refl].
Qed.

Lemma occurrences_NoDup c l :
  NoDup l -> occurrences c l = if includesZ l c then 1%nat else 0%nat.
Proof.
  intros N. induction N as [|x l Hx N IH]; [reflexivity|].
  unfold occurrences in *. cbn. destruct (Z.eqb_spec c x) as [->|Ne]; cbn.
  - f_equal. apply (occurrences_absent x l).
    destruct (includesZ l x) eqn:E; [|reflexivity].
    apply includesZ_In in E. contradiction.
  - exact IH.
Qed.

Lemma attaches_added g l c :
  attaches (map (fun x => addSliceToDashboard x (g x)) l) c = occurrences c l
  /\ detaches (map (fun x => addSliceToDashboard x (g x)) l) c = 0%nat.
Proof.
  unfold attaches, detaches, occurrences.
  induction l as [|x l [IHa IHd]]; cbn; [split; reflexivity|].
  split; [|exact IHd].
  destruct (Z.eqb c x); cbn; now rewrite IHa.
Qed.

Lemma detaches_removed l c :
  detaches (map removeSliceFromDashboard l) c = occurrences c l
  /\ attaches (map removeSliceFromDashboard l) c = 0%nat.
Proof.
  unfold attaches, detaches, occurrences.
  induction l as [|x l [IHd IHa]]; cbn; [split; reflexivity|].
  split; [|exact IHa].
  destruct (Z.eqb c x); cbn; now rewrite IHd.
Qed.

(** The calls [componentWillReceiveProps] makes. *)
Lemma componentWillReceiveProps_issued props nextProps w :
  let cur := getChartIdsFromLayout (layout props) in
  let nxt := getChartIdsFromLayout (layout nextProps) in
  issued (componentWillReceiveProps props nextProps) w =
    if (List.length cur <? List.length nxt)%nat then
      map (fun c => addSliceToDashboard c
                      (getLayoutComponentFromChartId (layout nextProps) c))
          (filter (notIndexed cur) nxt)
    else if (List.length nxt <? List.length cur)%nat then
      map removeSliceFromDashboard (filter (notIndexed nxt) cur)
    else [].
Proof.
  cbn zeta. unfold componentWillReceiveProps.
  destruct (_ <? _)%nat.
  - eapply issued_logged. apply forEach_call.
  - destruct (_ <? _)%nat.
    + eapply issued_logged. apply forEach_call.
    + apply issued_app. cbn. now rewrite app_nil_r.
Qed.

(** C1, as the code has it.  For two layouts whose lists of chart ids
    have no repetition: when the next layout has more chart ids than the
    previous one, the diff emits exactly one attach event for each id
    that is only in the next layout and no detach event; when it has
    fewer, exactly one detach event for each id that is only in the
    previous layout and no attach event; when both have the same number
    of ids it emits nothing. *)
Theorem layout_diff_one_direction (props nextProps : Props) (w : World) :
  let cur := getChartIdsFromLayout (layout props) in
  let nxt := getChartIdsFromLayout (layout nextProps) in
  let acts := issued (componentWillReceiveProps props nextProps) w in
  NoDup cur -> NoDup nxt ->
  forall c,
    attaches acts c =
      (if (List.length cur <? List.length nxt)%nat
          && includesZ nxt c && notIndexed cur c
       then 1%nat else 0%nat)
    /\ detaches acts c =
      (if (List.length nxt <? List.length cur)%nat
          && includesZ cur c && notIndexed nxt c
       then 1%nat else 0%nat).
Proof.
  cbn zeta. intros Ncur Nnxt c.
  rewrite componentWillReceiveProps_issued.
  destruct (Nat.ltb_spec (List.length (getChartIdsFromLayout (layout props)))
              (List.length (getChartIdsFromLayout (layout nextProps))))
    as [Lt|Ge].
  - replace (_ <? _)%nat with false by (symmetry; apply Nat.ltb_ge; lia).
    destruct (attaches_added
                (getLayoutComponentFromChartId (layout nextProps))
                (filter (notIndexed (getChartIdsFromLayout (layout props)))
                        (getChartIdsFromLayout (layout nextProps))) c)
      as [-> ->].
    split; [|reflexivity].
    rewrite occurrences_filter, (occurrences_NoDup c Nnxt). cbn.
    destruct (notIndexed _ c), (includesZ _ c); reflexivity.
  - cbn [andb].
    destruct (Nat.ltb_spec (List.length (getChartIdsFromLayout (layout nextProps)))
                (List.length (getChartIdsFromLayout (layout props))))
      as [Lt|Ge'].
    + destruct (detaches_removed
                  (filter (notIndexed (getChartIdsFromLayout (layout nextProps)))
                          (getChartIdsFromLayout (layout props))) c)
        as [-> ->].
      split; [reflexivity|].
      rewrite occurrences_filter, (occurrences_NoDup c Ncur). cbn.
      destruct (notIndexed _ c), (includesZ _ c); reflexivity.
    + split; reflexivity.
Qed.

End LayoutDiff.

(* ------------------------------------------------------------------ *)
(** ** The per-chart evaluation *)

Section RefreshExcept.

Context {I : Imports}.

(** A loop whose body either leaves the world alone (and may throw) or
    makes the one call [q x] visits a sub-sequence of the array: whatever
    is counted, the calls made do not outnumber the elements. *)
Lemma forEach_at_most_once {A} (cb : A -> Js unit) (q : A -> Action) :
  (forall x w, (exists r, cb x w = (r, w))
               \/ cb x w = (Normal tt, logged w [q x])) ->
  forall l w, exists done r,
    forEach l cb w = (r, logged w (map q done))
    /\ forall p, (List.length (filter p done) <= List.length (filter p l))%nat.
Proof.
  intros Hcb. induction l as [|x l IH]; intros w.
  - exists [], (Normal tt). cbn. unfold ret. rewrite logged_nil. auto.
  - cbn [forEach]. destruct (Hcb x w) as [[r E]|E].
    + destruct r as [[]|e].
      * rewrite (bind_normal _ _ _ E).
        destruct (IH w) as [done [r [E' Hc]]].
        exists done, r. split; [exact E'|].
        intros p. cbn. specialize (Hc p). destruct (p x); cbn; lia.
      * rewrite (bind_throw _ _ _ E).
        exists [], (Throw e). cbn. rewrite logged_nil. split; [reflexivity|].
        intros p. lia.
    + rewrite (bind_normal _ _ _ E).
      destruct (IH (logged w [q x])) as [done [r [E' Hc]]].
      exists (x :: done), r. rewrite E', logged_app. split; [reflexivity|].
      intros p. cbn. specialize (Hc p). destruct (p x); cbn; lia.
Qed.

(** Whatever the metadata holds, [refreshExcept] only adds re-query
    requests, for a sub-sequence of the charts. *)
Lemma refreshExcept_calls props filterKey w :
  exists done r,
    refreshExcept props filterKey w = (r, logged w (map query done))
    /\ forall p, (List.length (filter p done)
                  <= List.length (filter p (getAllCharts props)))%nat.
Proof.
  unfold refreshExcept. apply forEach_at_most_once.
  intros c w0.
  destruct (strictEq (String_ (id c)) filterKey).
  - left. exists (Normal tt). reflexivity.
  - destruct (filterImmuneSlices (metadata (dashboardInfo props)))
      as [immune|]; cbn.
    2:{ left. exists (Throw TypeError). reflexivity. }
    unfold bind at 1. cbn.
    destruct (includesZ immune (id c)).
    { left. exists (Normal tt). reflexivity. }
    destruct (filterImmuneSliceFields (metadata (dashboardInfo props)))
      as [fields|]; cbn.
    2:{ left. exists (Throw TypeError). reflexivity. }
    unfold bind. cbn.
    match goal with |- context [if ?b then _ else _] => destruct b end.
    + right. reflexivity.
    + left. exists (Normal tt). reflexivity.
Qed.

(** With both immune-slice fields of the metadata present the evaluation
    runs to its end and re-queries exactly the charts [requeried]
    selects, in chart order. *)
Lemma refreshExcept_present props filterKey w immune fields :
  filterImmuneSlices (metadata (dashboardInfo props)) = Some immune ->
  filterImmuneSliceFields (metadata (dashboardInfo props)) = Some fields ->
  refreshExcept props filterKey w =
    (Normal tt,
     logged w (map query
                 (filter (requeried filterKey
                            (currentFilteredNames (filters props) filterKey)
                            immune fields)
                         (getAllCharts props)))).
Proof.
  intros Hs Hf. unfold refreshExcept. rewrite Hs, Hf.
  fold (currentFilteredNames (filters props) filterKey).
  generalize (currentFilteredNames (filters props) filterKey) as names.
  intros names. revert w.
  induction (getAllCharts props) as [|c l IH]; intros w.
  - cbn. unfold ret. now rewrite logged_nil.
  - cbn [forEach filter]. unfold requeried at 1.
    destruct (strictEq (String_ (id c)) filterKey); cbn.
    { unfold bind at 1. cbn. apply IH. }
    unfold bind at 1. cbn.
    destruct (includesZ immune (id c)); cbn.
    { apply IH. }
    match goal with |- context [if ?b then _ else _] => destruct b end.
    + cbn. etransitivity; [apply (IH (logged w [query c]))|].
      rewrite logged_app. reflexivity.
    + cbn. apply IH.
Qed.

(** Without [filterImmuneSlices] the evaluation throws at the first chart
    that is not the source of the filter, before any request. *)
Lemma refreshExcept_absent_slices props filterKey w c rest :
  filterImmuneSlices (metadata (dashboardInfo props)) = None ->
  getAllCharts props = c :: rest ->
  strictEq (String_ (id c)) filterKey = false ->
  refreshExcept props filterKey w = (Throw TypeError, w).
Proof.
  intros Hs Hc Hk. unfold refreshExcept. rewrite Hs, Hc. cbn [forEach].
  rewrite Hk. reflexivity.
Qed.

(** Without [filterImmuneSliceFields] it throws at the first chart that is
    neither the source of the filter nor immune. *)
Lemma refreshExcept_absent_fields props filterKey w immune c rest :
  filterImmuneSlices (metadata (dashboardInfo props)) = Some immune ->
  filterImmuneSliceFields (metadata (dashboardInfo props)) = None ->
  getAllCharts props = c :: rest ->
  strictEq (String_ (id c)) filterKey = false ->
  includesZ immune (id c) = false ->
  refreshExcept props filterKey w = (Throw TypeError, w).
Proof.
  intros Hs Hf Hc Hk Hi. unfold refreshExcept. rewrite Hs, Hf, Hc.
  cbn [forEach]. rewrite Hk. unfold bind. cbn. rewrite Hi. reflexivity.
Qed.

Lemma requeries_queries cs c :
  requeries (map query cs) c = occurrences c (map id cs).
Proof.
  unfold requeries, occurrences. induction cs as [|x cs IH]; cbn; [reflexivity|].
  destruct (Z.eqb c (id x)); cbn; now rewrite IH.
Qed.

Lemma occurrences_ids c (cs : list Chart) :
  occurrences c (map id cs) = List.length (filter (fun x => Z.eqb c (id x)) cs).
Proof.
  unfold occurrences. induction cs as [|x cs IH]; cbn; [reflexivity|].
  destruct (Z.eqb c (id x)); cbn; now rewrite IH.
Qed.

(** Without [filterImmuneSlices] the evaluation throws as soon as some
    chart is not the source of the filter; the charts before it are
    skipped, so nothing has been requested. *)
Lemma refreshExcept_throws_slices props filterKey w :
  filterImmuneSlices (metadata (dashboardInfo props)) = None ->
  (exists c, In c (getAllCharts props)
             /\ strictEq (String_ (id c)) filterKey = false) ->
  refreshExcept props filterKey w = (Throw TypeError, w).
Proof.
  intros Hs. unfold refreshExcept. rewrite Hs.
  induction (getAllCharts props) as [|x l IH]; intros [c [Hin Hk]];
    [destruct Hin|].
  cbn [forEach]. destruct (strictEq (String_ (id x)) filterKey) eqn:E.
  - unfold bind at 1. cbn. apply IH. exists c. split; [|exact Hk].
    destruct Hin as [->|Hin]; [congruence|exact Hin].
  - reflexivity.
Qed.

(** Without [filterImmuneSliceFields] it throws as soon as some chart is
    neither the source of the filter nor immune, again before any
    request. *)
Lemma refreshExcept_throws_fields props filterKey w immune :
  filterImmuneSlices (metadata (dashboardInfo props)) = Some immune ->
  filterImmuneSliceFields (metadata (dashboardInfo props)) = None ->
  (exists c, In c (getAllCharts props)
             /\ strictEq (String_ (id c)) filterKey = false
             /\ includesZ immune (id c) = false) ->
  refreshExcept props filterKey w = (Throw TypeError, w).
Proof.
  intros Hs Hf. unfold refreshExcept. rewrite Hs, Hf.
  induction (getAllCharts props) as [|x l IH]; intros [c [Hin [Hk Hi]]];
    [destruct Hin|].
  assert (Tail : strictEq (String_ (id x)) filterKey = true
                 \/ includesZ immune (id x) = true ->
                 exists c, In c l
                           /\ strictEq (String_ (id c)) filterKey = false
                           /\ includesZ immune (id c) = false).
  { intros Skip. exists c. split; [|auto].
    destruct Hin as [->|Hin]; [|exact Hin].
    destruct Skip; congruence. }
  cbn [forEach]. destruct (strictEq (String_ (id x)) filterKey) eqn:E.
  - unfold bind at 1. cbn. apply IH. auto.
  - unfold bind at 1. cbn. destruct (includesZ immune (id x)) eqn:Ei.
    + apply IH. auto.
    + reflexivity.
Qed.

(** C3, as the code has it.  When the [filterImmuneSlices] list and the
    [filterImmuneSliceFields] mapping are both present, the per-chart
    evaluation runs to its end without failing, and a chart for which the
    mapping has no entry is treated as having no immune field: unless it
    is the source of the filter or listed in [filterImmuneSlices], it is
    re-queried.  When [filterImmuneSlices] is absent, the evaluation
    throws a [TypeError] as soon as a chart is not the source of the
    filter; when only [filterImmuneSliceFields] is absent, as soon as a
    chart is neither the source of the filter nor listed in
    [filterImmuneSlices]; in both cases before any request is made. *)
Theorem missing_entry_is_empty (props : Props) (filterKey : option string)
    (w : World) :
  (forall immune fields,
     filterImmuneSlices (metadata (dashboardInfo props)) = Some immune ->
     filterImmuneSliceFields (metadata (dashboardInfo props)) = Some fields ->
     fst (refreshExcept props filterKey w) = Normal tt
     /\ forall c,
          In c (getAllCharts props) ->
          get fields (String_ (id c)) = None ->
          strictEq (String_ (id c)) filterKey = false ->
          includesZ immune (id c) = false ->
          (1 <= requeries (issued (refreshExcept props filterKey) w)
                          (id c))%nat)
  /\ (filterImmuneSlices (metadata (dashboardInfo props)) = None ->
      (exists c, In c (getAllCharts props)
                 /\ strictEq (String_ (id c)) filterKey = false) ->
      refreshExcept props filterKey w = (Throw TypeError, w))
  /\ (forall immune,
        filterImmuneSlices (metadata (dashboardInfo props)) = Some immune ->
        filterImmuneSliceFields (metadata (dashboardInfo props)) = None ->
        (exists c, In c (getAllCharts props)
                   /\ strictEq (String_ (id c)) filterKey = false
                   /\ includesZ immune (id c) = false) ->
        refreshExcept props filterKey w = (Throw TypeError, w)).
Proof.
  split; [|split].
  - intros immune fields Hs Hf.
    pose proof (refreshExcept_present props filterKey w Hs Hf) as E.
    split; [now rewrite E|].
    intros c Hc Hg Hk Hi.
    rewrite (issued_logged _ E), requeries_queries, occurrences_ids.
    set (names := currentFilteredNames (filters props) filterKey).
    assert (Hq : requeried filterKey names immune fields c = true).
    { unfold requeried. rewrite Hk, Hi, Hg. cbn.
      destruct names as [|n ns]; reflexivity. }
    clear E. induction (getAllCharts props) as [|x l IH]; [destruct Hc|].
    cbn. destruct Hc as [->|Hc].
    + rewrite Hq. cbn. rewrite Z.eqb_refl. cbn. lia.
    + specialize (IH Hc).
      destruct (requeried filterKey names immune fields x); cbn; [|exact IH].
      destruct (Z.eqb (id c) (id x)); cbn; lia.
  - apply refreshExcept_throws_slices.
  - apply refreshExcept_throws_fields.
Qed.

End RefreshExcept.

(* ------------------------------------------------------------------ *)
(** ** The filter-change reconciler *)

Section Reconciler.

Context {I : Imports}.

Lemma componentDidUpdate_unfold props w :
  componentDidUpdate props w =
    ((if evaluates props (appliedFilters w)
      then refreshExcept props
             (changedFilterKey (appliedFilters w) (filters props)) ;;
           set_appliedFilters (filters props)
      else ret tt) ;;
     onBeforeUnload (hasUnsavedChanges (dashboardState props))) w.
Proof.
  unfold componentDidUpdate, evaluates.
  fold (changedFilterKey (appliedFilters w) (filters props)).
  unfold bind at 1, read.
  fold (changedFilterKey (appliedFilters w) (filters props)).
  destruct (editMode (dashboardState props)),
           (String.eqb (safeStringify (appliedFilters w))
                       (safeStringify (filters props))),
           (truthy (changedFilterKey (appliedFilters w) (filters props))
            || negb (Nat.eqb (List.length (keys (filters props)))
                             (List.length (keys (appliedFilters w)))));
    cbn [negb andb];
    destruct (hasUnsavedChanges (dashboardState props)); reflexivity.
Qed.

(** The unload guard touches neither the baseline nor the calls made. *)
Lemma onBeforeUnload_frame b w :
  fst (onBeforeUnload b w) = Normal tt
  /\ appliedFilters (snd (onBeforeUnload b w)) = appliedFilters w
  /\ dispatched (snd (onBeforeUnload b w)) = dispatched w.
Proof. destruct b; cbn; auto. Qed.

(** What an event leaves behind when the reconciler does not evaluate. *)
Lemma componentDidUpdate_idle props w :
  evaluates props (appliedFilters w) = false ->
  fst (componentDidUpdate props w) = Normal tt
  /\ appliedFilters (snd (componentDidUpdate props w)) = appliedFilters w
  /\ dispatched (snd (componentDidUpdate props w)) = dispatched w.
Proof.
  intros E. rewrite componentDidUpdate_unfold, E.
  unfold bind at 1, ret.
  apply onBeforeUnload_frame.
Qed.

(** What it leaves behind when it does: the calls of the per-chart
    evaluation, and the new baseline if that evaluation ran to its end. *)
Lemma componentDidUpdate_busy props w r acts :
  evaluates props (appliedFilters w) = true ->
  refreshExcept props (changedFilterKey (appliedFilters w) (filters props)) w
    = (r, logged w acts) ->
  fst (componentDidUpdate props w) = r
  /\ appliedFilters (snd (componentDidUpdate props w)) =
       match r with
       | Normal _ => filters props
       | Throw _ => appliedFilters w
       end
  /\ dispatched (snd (componentDidUpdate props w)) = dispatched w ++ acts.
Proof.
  intros E R. rewrite componentDidUpdate_unfold, E.
  destruct r as [[]|e].
  - assert (X : (refreshExcept props
                   (changedFilterKey (appliedFilters w) (filters props)) ;;
                 set_appliedFilters (filters props)) w
                = (Normal tt,
                   {| appliedFilters := filters props;
                      dispatched := dispatched w ++ acts;
                      listeners := listeners w |})).
    { rewrite (bind_normal _ _ _ R). reflexivity. }
    rewrite (bind_normal _ _ _ X).
    destruct (hasUnsavedChanges (dashboardState props)); cbn; auto.
  - assert (X : (refreshExcept props
                   (changedFilterKey (appliedFilters w) (filters props)) ;;
                 set_appliedFilters (filters props)) w
                = (Throw e, logged w acts)).
    { rewrite (bind_throw _ _ _ R). reflexivity. }
    rewrite (bind_throw _ _ _ X). cbn. auto.
Qed.

(** C4. For every previous and current filter state, every chart set and
    every metadata value: when [editMode] is true, an update issues no
    re-query request for any chart. *)
Theorem edit_mode_no_requery (props : Props) (w : World) :
  editMode (dashboardState props) = true ->
  forall c, requeries (issued (componentDidUpdate props) w) c = 0%nat.
Proof.
  intros E c.
  assert (Ev : evaluates props (appliedFilters w) = false).
  { unfold evaluates. now rewrite E. }
  destruct (componentDidUpdate_idle props w Ev) as [_ [_ D]].
  rewrite (issued_app (componentDidUpdate props) w []);
    [reflexivity | now rewrite app_nil_r].
Qed.

(** C7. The stored applied-filters baseline after an update: when the
    reconciler decides to evaluate re-queries and the per-chart
    evaluation runs to its end, it is the current filter state; in every
    other case it is the baseline from before. *)
Theorem baseline_after_update (props : Props) (w : World) :
  appliedFilters (snd (componentDidUpdate props w)) =
    if evaluates props (appliedFilters w)
       && completes props
            (changedFilterKey (appliedFilters w) (filters props)) w
    then filters props
    else appliedFilters w.
Proof.
  destruct (evaluates props (appliedFilters w)) eqn:E; cbn [andb].
  - destruct (refreshExcept_calls props
                (changedFilterKey (appliedFilters w) (filters props)) w)
      as [done [r [R _]]].
    destruct (componentDidUpdate_busy props E R) as [_ [A _]].
    rewrite A. unfold completes. rewrite R. cbn. now destruct r.
  - now destruct (componentDidUpdate_idle props w E) as [_ [A _]].
Qed.

(** C8. In a single update, for chart ids that are pairwise distinct, at
    most one re-query request is issued for any chart. *)
Theorem at_most_one_requery (props : Props) (w : World) :
  NoDup (map id (getAllCharts props)) ->
  forall c, (requeries (issued (componentDidUpdate props) w) c <= 1)%nat.
Proof.
  intros N c.
  destruct (evaluates props (appliedFilters w)) eqn:E.
  - destruct (refreshExcept_calls props
                (changedFilterKey (appliedFilters w) (filters props)) w)
      as [done [r [R Hc]]].
    destruct (componentDidUpdate_busy props E R) as [_ [_ D]].
    rewrite (issued_app _ _ _ D), requeries_queries, occurrences_ids.
    eapply Nat.le_trans; [apply Hc|].
    rewrite <- occurrences_ids, (occurrences_NoDup c N).
    destruct (includesZ _ c); lia.
  - destruct (componentDidUpdate_idle props w E) as [_ [_ D]].
    rewrite (issued_app (componentDidUpdate props) w []);
      [cbn; lia | now rewrite app_nil_r].
Qed.

End Reconciler.

(* ------------------------------------------------------------------ *)
(** ** Objects as maps, and structural equality *)

Section ObjectFacts.

Variable V : Type.

Lemma get_keys (o : Obj V) k : In k (keys o) <-> get o k <> None.
Proof.
  induction o as [|[k' v] o IH]; cbn.
  - split; [intros []|congruence].
  - destruct (String.eqb_spec k k') as [->|Ne].
    + split; [congruence|auto].
    + rewrite <- IH. split; [intros [E|H]; [congruence|assumption]|auto].
Qed.

Lemma get_In (o : Obj V) k v : get o k = Some v -> In (k, v) o.
Proof.
  induction o as [|[k' v'] o IH]; cbn; [discriminate|].
  destruct (String.eqb_spec k k') as [->|Ne].
  - intros E. left. congruence.
  - intros E. right. auto.
Qed.

Lemma In_get (o : Obj V) k v : wf o -> In (k, v) o -> get o k = Some v.
Proof.
  unfold wf. induction o as [|[k' v'] o IH]; cbn; [intros _ []|].
  intros N [E|H]; inversion N as [|? ? Hk N']; subst.
  - inversion E; subst. now rewrite String.eqb_refl.
  - destruct (String.eqb_spec k k') as [->|Ne]; [|auto].
    exfalso. apply Hk. change k' with (fst (k', v)). now apply in_map.
Qed.

(** Two objects with the same keys have the same number of them. *)
Lemma same_keys_length (a b : Obj V) :
  wf a -> wf b ->
  (forall k, In k (keys a) <-> In k (keys b)) ->
  List.length (keys a) = List.length (keys b).
Proof.
  intros Na Nb S. apply Nat.le_antisymm.
  - apply NoDup_incl_length; [exact Na|]. intros k. apply S.
  - apply NoDup_incl_length; [exact Nb|]. intros k. apply S.
Qed.

End ObjectFacts.

Section StructuralEquality.

Lemma Scalar_eqb_eq a b : Scalar_eqb a b = true <-> a = b.
Proof.
  destruct a, b; cbn; try (split; congruence).
  - rewrite Bool.eqb_true_iff. split; congruence.
  - rewrite Z.eqb_eq. split; congruence.
  - rewrite String.eqb_eq. split; congruence.
Qed.

Lemma Scalars_eqb_eq xs ys : Scalars_eqb xs ys = true <-> xs = ys.
Proof.
  revert ys. induction xs as [|x xs IH]; intros [|y ys]; cbn;
    try (split; congruence).
  rewrite andb_true_iff, Scalar_eqb_eq, IH. split.
  - intros [-> ->]. reflexivity.
  - intros E. inversion E. auto.
Qed.

Lemma FilterValue_eqb_eq a b : FilterValue_eqb a b = true <-> a = b.
Proof.
  destruct a, b; cbn; try (split; congruence).
  - rewrite Scalar_eqb_eq. split; congruence.
  - rewrite Scalars_eqb_eq. split; congruence.
Qed.

Lemma same_keys (a b : FieldMap) :
  sameFieldMap a b -> forall k, In k (keys a) <-> In k (keys b).
Proof. intros S k. rewrite !get_keys, (S k). reflexivity. Qed.

(** [areObjectsEqual] decides structural equality of field maps. *)
Lemma areObjectsEqual_same (a b : FieldMap) :
  wf a -> wf b -> (areObjectsEqual a b = true <-> sameFieldMap a b).
Proof.
  intros Na Nb. unfold areObjectsEqual.
  rewrite andb_true_iff, Nat.eqb_eq, forallb_forall. split.
  - intros [L F].
    assert (Inc : incl (keys a) (keys b)).
    { intros k Hk. apply in_map_iff in Hk. destruct Hk as [[k' v] [<- Hkv]].
      specialize (F _ Hkv). cbn in *. apply get_keys.
      destruct (get b k'); congruence. }
    assert (Inc' : incl (keys b) (keys a)).
    { apply NoDup_length_incl; [exact Na| |exact Inc].
      unfold keys. rewrite !length_map. lia. }
    intros k. destruct (get a k) as [v|] eqn:Ga.
    + specialize (F _ (get_In _ _ Ga)). cbn in F.
      destruct (get b k) as [v'|]; [|discriminate].
      apply FilterValue_eqb_eq in F. congruence.
    + destruct (get b k) as [v'|] eqn:Gb; [|reflexivity].
      exfalso. assert (Hk : In k (keys a)).
      { apply Inc'. apply get_keys. congruence. }
      apply get_keys in Hk. contradiction.
  - intros S. split.
    + pose proof (same_keys_length Na Nb (same_keys S)) as L.
      unfold keys in L. now rewrite !length_map in L.
    + intros [k v] Hkv. cbn. rewrite <- (S k), (In_get _ _ Na Hkv).
      now apply FilterValue_eqb_eq.
Qed.

End StructuralEquality.

(* ------------------------------------------------------------------ *)
(** ** Which key is selected, and when nothing changed *)

Section ChangedKey.

Context {I : Imports}.

Lemma lastKey_cons x l :
  lastKey (x :: l) = match lastKey l with Some k => Some k | None => Some x end.
Proof.
  revert x. induction l as [|y l IH]; intros x; [reflexivity|].
  change (lastKey (x :: y :: l)) with (lastKey (y :: l)).
  rewrite (IH y). now destruct (lastKey l).
Qed.

(** The loop keeps the last key that passes the test. *)
Lemma fold_keeps_last (p : string -> bool) l acc :
  fold_left (fun changed key => if p key then Some key else changed) l acc =
    match lastKey (filter p l) with
    | Some k => Some k
    | None => acc
    end.
Proof.
  revert acc. induction l as [|x l IH]; intros acc; [reflexivity|].
  cbn [fold_left filter]. rewrite IH.
  destruct (p x); [|reflexivity].
  rewrite lastKey_cons. now destruct (lastKey (filter p l)).
Qed.

Lemma changedFilterKey_last applied current :
  changedFilterKey applied current = lastKey (changedKeys applied current).
Proof.
  unfold changedFilterKey, changedKeys. rewrite fold_keeps_last.
  now destruct (lastKey _).
Qed.

Lemma same_filter_keys (a b : FilterState) :
  sameFilterState a b -> forall k, In k (keys a) <-> In k (keys b).
Proof.
  intros S k. rewrite !get_keys. specialize (S k).
  destruct (get a k), (get b k); try contradiction; split; congruence.
Qed.

(** Between structurally equal filter states no key is new or changed. *)
Lemma same_nothing_changed (applied current : FilterState) :
  wfFilterState applied -> wfFilterState current ->
  sameFilterState applied current ->
  changedKeys applied current = [].
Proof.
  intros [Na Fa] [Nc Fc] S. unfold changedKeys.
  assert (H : forall k, In k (keys current) ->
                        addedOrChanged applied current k = false).
  { intros k Hk. unfold addedOrChanged, lookup. specialize (S k).
    destruct (get applied k) as [x|] eqn:Ga, (get current k) as [y|] eqn:Gc;
      try contradiction.
    - apply negb_false_iff. apply areObjectsEqual_same; [| |exact S].
      + rewrite Forall_forall in Fa. apply (Fa _ (get_In _ _ Ga)).
      + rewrite Forall_forall in Fc. apply (Fc _ (get_In _ _ Gc)).
    - apply get_keys in Hk. contradiction. }
  induction (keys current) as [|k l IH]; [reflexivity|].
  cbn. rewrite (H k) by now left. apply IH. intros k' Hk'. apply H. now right.
Qed.

(** C5. For every filter state, chart set and metadata value: when the
    previously applied filters and the current filters are structurally
    equal, that is, equal as nested key/value mappings whatever the order
    of their keys, an update issues no re-query request for any chart. *)
Theorem equal_filters_no_requery (props : Props) (w : World) :
  wfFilterState (appliedFilters w) ->
  wfFilterState (filters props) ->
  sameFilterState (appliedFilters w) (filters props) ->
  forall c, requeries (issued (componentDidUpdate props) w) c = 0%nat.
Proof.
  intros Wa Wc S c.
  assert (Ev : evaluates props (appliedFilters w) = false).
  { unfold evaluates.
    rewrite changedFilterKey_last, (same_nothing_changed Wa Wc S). cbn.
    rewrite (same_keys_length (proj1 Wc) (proj1 Wa)).
    - rewrite Nat.eqb_refl. cbn. now rewrite andb_false_r.
    - intros k. symmetry. now apply same_filter_keys. }
  destruct (componentDidUpdate_idle props w Ev) as [_ [_ D]].
  rewrite (issued_app (componentDidUpdate props) w []);
    [reflexivity | now rewrite app_nil_r].
Qed.

Lemma filter_all {A} (p : A -> bool) l :
  (forall x, p x = true) -> filter p l = l.
Proof.
  intros Hp. induction l as [|x l IH]; [reflexivity|].
  cbn. now rewrite Hp, IH.
Qed.

Lemma present_counted (c : Chart) l :
  In c l ->
  (1 <= List.length (filter (fun x => Z.eqb (id c) (id x)) l))%nat.
Proof.
  induction l as [|x l IH]; [intros []|].
  cbn. intros [->|Hc].
  - rewrite Z.eqb_refl. cbn. lia.
  - destruct (Z.eqb (id c) (id x)); cbn; [lia|auto].
Qed.

(** C6. When the previous filter state has exactly one key, the current
    filter state is empty, [filterImmuneSlices] is empty, the metadata has
    its [filterImmuneSliceFields] mapping, edit mode is off and the two
    filter states serialise differently, an update issues one re-query
    request for every chart of the chart set, in chart order. *)
Theorem last_filter_removed_requeries_all (props : Props) (w : World)
    (fields : Obj (list string)) :
  List.length (keys (appliedFilters w)) = 1%nat ->
  filters props = [] ->
  filterImmuneSlices (metadata (dashboardInfo props)) = Some [] ->
  filterImmuneSliceFields (metadata (dashboardInfo props)) = Some fields ->
  editMode (dashboardState props) = false ->
  safeStringify (appliedFilters w) <> safeStringify (filters props) ->
  issued (componentDidUpdate props) w = map query (getAllCharts props)
  /\ forall c, In c (getAllCharts props) ->
       (1 <= requeries (issued (componentDidUpdate props) w) (id c))%nat.
Proof.
  intros L F Hs Hf E Ne.
  assert (K : changedFilterKey (appliedFilters w) (filters props) = None).
  { now rewrite F. }
  assert (Ev : evaluates props (appliedFilters w) = true).
  { unfold evaluates. rewrite E, K.
    apply String.eqb_neq in Ne. rewrite Ne, F, L. reflexivity. }
  pose proof (refreshExcept_present props None w Hs Hf) as R.
  rewrite <- K in R at 1.
  destruct (componentDidUpdate_busy props Ev R) as [_ [_ D]].
  assert (Hq : forall x, requeried None
                           (currentFilteredNames (filters props) None)
                           [] fields x = true).
  { intros x. reflexivity. }
  assert (Q : filter (requeried None
                        (currentFilteredNames (filters props) None) [] fields)
                     (getAllCharts props) = getAllCharts props).
  { apply filter_all. exact Hq. }
  rewrite Q in D.
  rewrite (issued_app _ _ _ D). split; [reflexivity|].
  intros c Hc. rewrite requeries_queries, occurrences_ids.
  now apply present_counted.
Qed.

End ChangedKey.

(* ------------------------------------------------------------------ *)
(** ** The representative key and the scenario of the spec *)

Section Representative.

Context {I : Imports}.

(** [refreshExcept] reads the filters only through the field names of
    the key it is given. *)
Lemma refreshExcept_names_only props props' filterKey w :
  charts props = charts props' ->
  dashboardInfo props = dashboardInfo props' ->
  currentFilteredNames (filters props) filterKey =
    currentFilteredNames (filters props') filterKey ->
  refreshExcept props filterKey w = refreshExcept props' filterKey w.
Proof.
  intros Hc Hd Hn. unfold refreshExcept, getAllCharts.
  fold (currentFilteredNames (filters props) filterKey).
  fold (currentFilteredNames (filters props') filterKey).
  now rewrite Hc, Hd, Hn.
Qed.

(** An update that selects the non-empty key [k], with edit mode off and
    the immune-slice metadata present. *)
Lemma update_with_key props w k fields immune immuneFields :
  changedFilterKey (appliedFilters w) (filters props) = Some k ->
  k <> "" ->
  get (filters props) k = Some fields ->
  editMode (dashboardState props) = false ->
  safeStringify (appliedFilters w) <> safeStringify (filters props) ->
  filterImmuneSlices (metadata (dashboardInfo props)) = Some immune ->
  filterImmuneSliceFields (metadata (dashboardInfo props)) = Some immuneFields ->
  issued (componentDidUpdate props) w =
    map query
      (filter (requeried (Some k) (keys fields) immune immuneFields)
              (getAllCharts props)).
Proof.
  intros K Nk G E Ne Hs Hf.
  assert (T : truthy (Some k) = true).
  { cbn. apply negb_true_iff. now apply String.eqb_neq. }
  assert (Ev : evaluates props (appliedFilters w) = true).
  { unfold evaluates. rewrite E, K, T.
    apply String.eqb_neq in Ne. now rewrite Ne. }
  pose proof (refreshExcept_present props (Some k) w Hs Hf) as R.
  assert (N : currentFilteredNames (filters props) (Some k) = keys fields).
  { unfold currentFilteredNames. now rewrite T, G. }
  rewrite N in R. rewrite <- K in R at 1.
  destruct (componentDidUpdate_busy props Ev R) as [_ [_ D]].
  exact (issued_app _ _ _ D).
Qed.


(** On filter states that are objects, and unless [__proto__] is a new key
    with an empty field map, the test of the loop holds exactly for the
    keys that are new or deeply different. *)
Lemma addedOrChanged_spec applied current k fields :
  wfFilterState applied -> wfFilterState current ->
  (get applied "__proto__" = None -> get current "__proto__" <> Some []) ->
  get current k = Some fields ->
  (addedOrChanged applied current k = true <-> newOrDifferent applied current k).
Proof.
  intros [_ Fa] [_ Fc] Hp G. unfold addedOrChanged, lookup, newOrDifferent.
  rewrite G. destruct (get applied k) as [before|] eqn:Ga.
  - assert (Wb : wf before).
    { rewrite Forall_forall in Fa. apply (Fa _ (get_In _ _ Ga)). }
    assert (Wf : wf fields).
    { rewrite Forall_forall in Fc. apply (Fc _ (get_In _ _ G)). }
    rewrite negb_true_iff. split.
    + intros E. exists fields. split; [reflexivity|].
      intros S. apply (areObjectsEqual_same Wb Wf) in S. congruence.
    + intros [fields' [E N]]. inversion E; subst fields'.
      destruct (areObjectsEqual before fields) eqn:Eq; [|reflexivity].
      exfalso. apply N. now apply (areObjectsEqual_same Wb Wf).
  - split; [intros _; exists fields; auto|]. intros _.
    destruct (String.eqb_spec k "__proto__") as [->|Ne].
    + destruct fields as [|kv fields]; [|reflexivity].
      exfalso. now apply (Hp Ga).
    + now destruct (includes inheritedMethods k).
Qed.



(** C2. Charts 1, 2 and 3, [filterImmuneSlices = [3]],
    [filterImmuneSliceFields = {2: ["region"]}], no filter applied so far,
    current filters [{"10": {"region": ["US"]}}], edit mode off, the two
    filter states serialising differently: the update issues a re-query
    for chart 1 and none for chart 2 and chart 3. *)
Theorem scenario_region_filter (props : Props) (w : World) :
  charts props = Sample.charts123 ->
  metadata (dashboardInfo props) = Sample.metadata3 ->
  appliedFilters w = [] ->
  filters props = Sample.filters10 ->
  editMode (dashboardState props) = false ->
  safeStringify [] <> safeStringify Sample.filters10 ->
  issued (componentDidUpdate props) w = [triggerQuery true 1]
  /\ requeries (issued (componentDidUpdate props) w) 1 = 1%nat
  /\ requeries (issued (componentDidUpdate props) w) 2 = 0%nat
  /\ requeries (issued (componentDidUpdate props) w) 3 = 0%nat.
Proof.
  intros Hc Hm Ha F E Ne.
  assert (X : issued (componentDidUpdate props) w = [triggerQuery true 1]).
  { rewrite (update_with_key props w (k := "10")
               (fields := [("region", VArray [SStr "US"])])
               (immune := [3%Z]) (immuneFields := [("2", ["region"])])).
    - unfold getAllCharts. rewrite Hc. reflexivity.
    - rewrite Ha, F. reflexivity.
    - discriminate.
    - rewrite F. reflexivity.
    - exact E.
    - now rewrite Ha, F.
    - now rewrite Hm.
    - now rewrite Hm. }
  rewrite X. repeat split.
Qed.

End Representative.

(* ------------------------------------------------------------------ *)
(** ** Keys that are chart ids, and the JSON instance *)

Section ChartIdKeys.

(** The decimal text of a number is never the empty string, so a filter
    key that is a chart id is truthy. *)
Lemma String_nonempty n : String_ n <> "".
Proof.
  unfold String_. destruct (Z.to_int n) as [d|d]; cbn.
  - destruct d; cbn; discriminate.
  - discriminate.
Qed.

Lemma chart_key_truthy n : truthy (Some (String_ n)) = true.
Proof.
  cbn. apply negb_true_iff, String.eqb_neq, String_nonempty.
Qed.

(** The JSON text of a filter state with a key differs from that of the
    empty one. *)
Lemma stringify_nonempty kv (f : FilterState) :
  Sample.stringify (kv :: f) <> Sample.stringify [].
Proof.
  unfold Sample.stringify, Sample.stringifyObj.
  destruct f; cbn; discriminate.
Qed.

End ChartIdKeys.

(* ------------------------------------------------------------------ *)
(** ** More on the layout diff *)

Section LayoutDiffMore.

Context {I : Imports}.

Lemma notIndexed_In l c : notIndexed l c = true <-> ~ In c l.
Proof.
  unfold notIndexed. rewrite negb_true_iff, <- includesZ_In.
  destruct (includesZ l c); split; congruence.
Qed.

(** The events counted per id, whatever the id lists hold. *)
Lemma layout_diff_counts props nextProps w c :
  let cur := getChartIdsFromLayout (layout props) in
  let nxt := getChartIdsFromLayout (layout nextProps) in
  let acts := issued (componentWillReceiveProps props nextProps) w in
  attaches acts c =
    (if (List.length cur <? List.length nxt)%nat
     then occurrences c (filter (notIndexed cur) nxt) else 0%nat)
  /\ detaches acts c =
    (if (List.length cur <? List.length nxt)%nat then 0%nat
     else if (List.length nxt <? List.length cur)%nat
          then occurrences c (filter (notIndexed nxt) cur) else 0%nat).
Proof.
  cbn zeta. rewrite componentWillReceiveProps_issued.
  destruct (_ <? _)%nat; [apply attaches_added|].
  destruct (_ <? _)%nat; [|split; reflexivity].
  destruct (detaches_removed
              (filter (notIndexed (getChartIdsFromLayout (layout nextProps)))
                      (getChartIdsFromLayout (layout props))) c) as [D A].
  now rewrite D, A.
Qed.

(** A list without repetition that lies inside another and misses one of
    its members is strictly shorter. *)
Lemma strictly_shorter (a b : list Z) c :
  NoDup a -> incl a b -> In c b -> ~ In c a ->
  (List.length a < List.length b)%nat.
Proof.
  intros Na Inc Hb Ha.
  pose proof (NoDup_incl_length Na Inc) as Le.
  destruct (Nat.eq_dec (List.length a) (List.length b)) as [E|Ne]; [|lia].
  exfalso. apply Ha.
  apply (NoDup_length_incl Na (l' := b)); [lia | exact Inc | exact Hb].
Qed.

(** X1. Every event the layout diff emits answers a real difference: an
    attach is for an id that the next layout has and the previous one has
    not, and carries the component the next layout gives that id; a
    detach is for an id that the previous layout has and the next one has
    not.  Nothing else is emitted. *)
Theorem layout_diff_events_genuine (props nextProps : Props) (w : World) :
  Forall (genuine props nextProps)
         (issued (componentWillReceiveProps props nextProps) w).
Proof.
  rewrite componentWillReceiveProps_issued. apply Forall_forall.
  intros a Ha.
  destruct (_ <? _)%nat.
  - apply in_map_iff in Ha. destruct Ha as [c [<- Hc]].
    apply filter_In in Hc. destruct Hc as [Hn Hc]. cbn.
    apply notIndexed_In in Hc. auto.
  - destruct (_ <? _)%nat; [|destruct Ha].
    apply in_map_iff in Ha. destruct Ha as [c [<- Hc]].
    apply filter_In in Hc. destruct Hc as [Hn Hc]. cbn.
    apply notIndexed_In in Hc. auto.
Qed.

(** X2. For two layouts whose id lists have no repetition, when ids were
    only added (every previous id is still there) or only removed (every
    next id was already there), the diff emits exactly one attach event
    for each id that is only in the next layout and exactly one detach
    event for each id that is only in the previous one. *)
Theorem layout_diff_pure_change (props nextProps : Props) (w : World) :
  NoDup (getChartIdsFromLayout (layout props)) ->
  NoDup (getChartIdsFromLayout (layout nextProps)) ->
  incl (getChartIdsFromLayout (layout props))
       (getChartIdsFromLayout (layout nextProps))
  \/ incl (getChartIdsFromLayout (layout nextProps))
          (getChartIdsFromLayout (layout props)) ->
  diffEmitsBoth props nextProps w.
Proof.
  intros Nc Nn Inc c. cbn zeta.
  destruct (layout_diff_counts props nextProps w c) as [A D].
  cbn zeta in A, D. rewrite A, D. clear A D.
  set (cur := getChartIdsFromLayout (layout props)) in *.
  set (nxt := getChartIdsFromLayout (layout nextProps)) in *.
  split; intros Hin Hout.
  - (* an id only in the previous layout *)
    destruct Inc as [Inc|Inc]; [exfalso; apply Hout, Inc, Hin|].
    pose proof (@strictly_shorter nxt cur c Nn Inc Hin Hout) as Lt.
    replace (List.length cur <? List.length nxt)%nat with false
      by (symmetry; apply Nat.ltb_ge; lia).
    replace (List.length nxt <? List.length cur)%nat with true
      by (symmetry; apply Nat.ltb_lt; lia).
    rewrite occurrences_filter, (proj2 (notIndexed_In nxt c) Hout).
    rewrite (occurrences_NoDup c Nc), (proj2 (includesZ_In cur c) Hin).
    reflexivity.
  - (* an id only in the next layout *)
    destruct Inc as [Inc|Inc]; [|exfalso; apply Hout, Inc, Hin].
    pose proof (@strictly_shorter cur nxt c Nc Inc Hin Hout) as Lt.
    replace (List.length cur <? List.length nxt)%nat with true
      by (symmetry; apply Nat.ltb_lt; lia).
    rewrite occurrences_filter, (proj2 (notIndexed_In cur c) Hout).
    rewrite (occurrences_NoDup c Nn), (proj2 (includesZ_In nxt c) Hin).
    reflexivity.
Qed.

(** X3. What the diff from one layout to another attaches, the diff back
    detaches, and the other way round: for every id the two counts agree,
    whatever the two layouts are. *)
Theorem layout_diff_reverse (props nextProps : Props) (w w' : World) (c : Z) :
  attaches (issued (componentWillReceiveProps props nextProps) w) c
  = detaches (issued (componentWillReceiveProps nextProps props) w') c
  /\ detaches (issued (componentWillReceiveProps props nextProps) w) c
     = attaches (issued (componentWillReceiveProps nextProps props) w') c.
Proof.
  destruct (layout_diff_counts props nextProps w c) as [A D].
  destruct (layout_diff_counts nextProps props w' c) as [A' D'].
  cbn zeta in *. rewrite A, D, A', D'. clear A D A' D'.
  destruct (Nat.ltb_spec
              (List.length (getChartIdsFromLayout (layout props)))
              (List.length (getChartIdsFromLayout (layout nextProps))));
    destruct (Nat.ltb_spec
                (List.length (getChartIdsFromLayout (layout nextProps)))
                (List.length (getChartIdsFromLayout (layout props))));
    try lia; split; reflexivity.
Qed.

(** X4. When the next layout holds the same chart ids as the previous one,
    in any order, the diff emits nothing and leaves the world as it is. *)
Theorem layout_diff_reorder_silent (props nextProps : Props) (w : World) :
  Permutation (getChartIdsFromLayout (layout props))
              (getChartIdsFromLayout (layout nextProps)) ->
  componentWillReceiveProps props nextProps w = (Normal tt, w).
Proof.
  intros P. apply Permutation_length in P.
  unfold componentWillReceiveProps. rewrite P, Nat.ltb_irrefl. reflexivity.
Qed.

End LayoutDiffMore.

(* ------------------------------------------------------------------ *)
(** ** More on the unload guard *)

Section UnloadGuardMore.

Context {I : Imports}.

Lemma existsb_registered r l : existsb (Registration_eqb r) l = true <-> In r l.
Proof.
  rewrite existsb_exists. split.
  - intros [x [Hx E]]. apply Registration_eqb_eq in E. now subst.
  - intros H. exists r. split; [assumption|]. now apply Registration_eqb_eq.
Qed.

Lemma add_In type listener l r :
  In r (addEventListener type listener l) <-> r = (type, listener) \/ In r l.
Proof.
  unfold addEventListener.
  destruct (existsb (Registration_eqb (type, listener)) l) eqn:E.
  - apply existsb_registered in E. split; [auto|]. intros [->|H]; assumption.
  - rewrite in_app_iff. cbn. intuition congruence.
Qed.

Lemma add_NoDup type listener l :
  NoDup l -> NoDup (addEventListener type listener l).
Proof.
  intros N. unfold addEventListener.
  destruct (existsb (Registration_eqb (type, listener)) l) eqn:E; [exact N|].
  apply NoDup_app; [exact N | repeat constructor; intros [] |].
  intros x Hx [<-|[]].
  apply (proj2 (existsb_registered _ _)) in Hx. congruence.
Qed.

Lemma remove_In type listener l r :
  NoDup l ->
  (In r (removeEventListener type listener l)
   <-> r <> (type, listener) /\ In r l).
Proof.
  induction 1 as [|x l Hx N IH]; cbn; [tauto|].
  destruct (Registration_eqb (type, listener) x) eqn:E.
  - apply Registration_eqb_eq in E. subst x. split.
    + intros H. split; [intros ->; contradiction | now right].
    + intros [Ne [E|H]]; [congruence|assumption].
  - assert (Ne : x <> (type, listener)).
    { intros ->. rewrite (proj2 (Registration_eqb_eq _ _) eq_refl) in E.
      discriminate. }
    cbn. rewrite IH. split.
    + intros [<-|[Hr H]]; auto.
    + intros [Hr [E'|H]]; auto.
Qed.

Lemma remove_NoDup type listener l :
  NoDup l -> NoDup (removeEventListener type listener l).
Proof.
  induction 1 as [|x l Hx N IH]; cbn; [constructor|].
  destruct (Registration_eqb (type, listener) x); [exact N|].
  constructor; [|exact IH].
  intros H. apply (remove_In type listener x N) in H. tauto.
Qed.

(** X5. On a listener list without repetition, after the unload guard is
    called the handler [Dashboard.unload] is registered for [beforeunload]
    exactly when the flag was true; the list still has no repetition and
    every other registration is there exactly as before. *)
Theorem onBeforeUnload_registered_iff (hasChanged : bool) (w : World) :
  NoDup (listeners w) ->
  (In guard (listeners (snd (onBeforeUnload hasChanged w)))
   <-> hasChanged = true)
  /\ NoDup (listeners (snd (onBeforeUnload hasChanged w)))
  /\ forall r, r <> guard ->
       (In r (listeners (snd (onBeforeUnload hasChanged w)))
        <-> In r (listeners w)).
Proof.
  intros N. unfold guard. destruct hasChanged; cbn.
  - split; [|split].
    + rewrite add_In. tauto.
    + now apply add_NoDup.
    + intros r Hr. rewrite add_In. tauto.
  - split; [|split].
    + rewrite (remove_In _ _ _ N). split; [tauto|discriminate].
    + now apply remove_NoDup.
    + intros r Hr. rewrite (remove_In _ _ _ N). tauto.
Qed.

(** X6. On a listener list without repetition, calling the unload guard
    twice with the same flag does what calling it once does: a second
    registration adds nothing, a second removal removes nothing. *)
Theorem onBeforeUnload_twice (hasChanged : bool) (w : World) :
  NoDup (listeners w) ->
  (onBeforeUnload hasChanged ;; onBeforeUnload hasChanged) w
  = onBeforeUnload hasChanged w.
Proof.
  intros N.
  destruct hasChanged; unfold bind, onBeforeUnload, window_update, modify;
    cbn [listeners appliedFilters dispatched].
  - assert (E : addEventListener "beforeunload" Dashboard_unload
                  (addEventListener "beforeunload" Dashboard_unload
                     (listeners w))
                = addEventListener "beforeunload" Dashboard_unload
                    (listeners w)).
    { unfold addEventListener at 1.
      replace (existsb _ _) with true; [reflexivity|].
      symmetry. apply existsb_registered, add_In. now left. }
    now rewrite E.
  - assert (E : removeEventListener "beforeunload" Dashboard_unload
                  (removeEventListener "beforeunload" Dashboard_unload
                     (listeners w))
                = removeEventListener "beforeunload" Dashboard_unload
                    (listeners w)).
    { apply remove_absent. rewrite (remove_In _ _ _ N). tauto. }
    now rewrite E.
Qed.

End UnloadGuardMore.

(* ------------------------------------------------------------------ *)
(** ** More on the per-chart evaluation *)

Section RefreshExceptMore.

Context {I : Imports}.

(** A loop whose body either leaves the world alone (and may throw) or
    makes the one call [q x], the latter only for elements with [P]: the
    calls made are for elements of the array that have [P]. *)
Lemma forEach_selects {A} (cb : A -> Js unit) (q : A -> Action)
    (P : A -> Prop) :
  (forall x w, (exists r, cb x w = (r, w))
               \/ (cb x w = (Normal tt, logged w [q x]) /\ P x)) ->
  forall l w, exists done r,
    forEach l cb w = (r, logged w (map q done))
    /\ Forall P done /\ incl done l.
Proof.
  intros Hcb. induction l as [|x l IH]; intros w.
  - exists [], (Normal tt). cbn. unfold ret. rewrite logged_nil.
    repeat split; [constructor | apply incl_refl].
  - cbn [forEach]. destruct (Hcb x w) as [[r E]|[E Px]].
    + destruct r as [[]|e].
      * rewrite (bind_normal _ _ _ E).
        destruct (IH w) as [done [r [E' [F Inc]]]].
        exists done, r. repeat split; [exact E' | exact F |].
        now apply incl_tl.
      * rewrite (bind_throw _ _ _ E).
        exists [], (Throw e). cbn. rewrite logged_nil.
        repeat split; [constructor | apply incl_nil_l].
    + rewrite (bind_normal _ _ _ E).
      destruct (IH (logged w [q x])) as [done [r [E' [F Inc]]]].
      exists (x :: done), r. rewrite E', logged_app.
      repeat split; [now constructor|].
      apply incl_cons; [now left | now apply incl_tl].
Qed.

(** The charts [refreshExcept] re-queries are charts of the chart set that
    pass its tests. *)
Lemma refreshExcept_done props filterKey w :
  exists done r,
    refreshExcept props filterKey w = (r, logged w (map query done))
    /\ Forall (passes props filterKey) done
    /\ incl done (getAllCharts props).
Proof.
  unfold refreshExcept.
  fold (currentFilteredNames (filters props) filterKey).
  apply forEach_selects.
  intros c w0. unfold passes, requeried, immuneNames.
  destruct (strictEq (String_ (id c)) filterKey).
  { left. exists (Normal tt). reflexivity. }
  destruct (filterImmuneSlices (metadata (dashboardInfo props)))
    as [immune|]; cbn.
  2:{ left. exists (Throw TypeError). reflexivity. }
  unfold bind at 1. cbn.
  destruct (includesZ immune (id c)) eqn:Ei.
  { left. exists (Normal tt). reflexivity. }
  destruct (filterImmuneSliceFields (metadata (dashboardInfo props)))
    as [fields|]; cbn.
  2:{ left. exists (Throw TypeError). reflexivity. }
  unfold bind. cbn.
  match goal with |- context [if ?b then _ else _] => destruct b eqn:Et end.
  - right. split; [reflexivity|].
    exists immune, fields. rewrite Ei. cbn in *. rewrite Et. auto.
  - left. exists (Normal tt). reflexivity.
Qed.

(** With one of the two immune-slice fields absent no chart passes. *)
Lemma absent_none_passes props filterKey done :
  filterImmuneSlices (metadata (dashboardInfo props)) = None
  \/ filterImmuneSliceFields (metadata (dashboardInfo props)) = None ->
  Forall (passes props filterKey) done -> done = [].
Proof.
  intros A F. destruct done as [|c done]; [reflexivity|].
  inversion F as [|? ? [immune [fields [Hs [Hf _]]]] _]; subst.
  destruct A; congruence.
Qed.

Lemma refreshExcept_absent_quiet props filterKey w :
  filterImmuneSlices (metadata (dashboardInfo props)) = None
  \/ filterImmuneSliceFields (metadata (dashboardInfo props)) = None ->
  exists r, refreshExcept props filterKey w = (r, w).
Proof.
  intros A.
  destruct (refreshExcept_done props filterKey w) as [done [r [E [F _]]]].
  rewrite (absent_none_passes A F) in E. cbn in E.
  rewrite logged_nil in E. now exists r.
Qed.

(** [refreshExcept] throws only with one of the two fields absent, and
    then before any request. *)
Lemma refreshExcept_throw props filterKey w e w' :
  refreshExcept props filterKey w = (Throw e, w') ->
  w' = w
  /\ (filterImmuneSlices (metadata (dashboardInfo props)) = None
      \/ filterImmuneSliceFields (metadata (dashboardInfo props)) = None).
Proof.
  intros E.
  destruct (filterImmuneSlices (metadata (dashboardInfo props)))
    as [immune|] eqn:Hs;
    destruct (filterImmuneSliceFields (metadata (dashboardInfo props)))
      as [fields|] eqn:Hf.
  - rewrite (refreshExcept_present props filterKey w Hs Hf) in E.
    discriminate.
  - destruct (refreshExcept_absent_quiet props filterKey w) as [r R];
      [rewrite Hf; auto|]. rewrite R in E. inversion E. auto.
  - destruct (refreshExcept_absent_quiet props filterKey w) as [r R];
      [rewrite Hs; auto|]. rewrite R in E. inversion E. auto.
  - destruct (refreshExcept_absent_quiet props filterKey w) as [r R];
      [rewrite Hs; auto|]. rewrite R in E. inversion E. auto.
Qed.

Lemma requeries_none done n :
  Forall (fun c => id c <> n) done -> requeries (map query done) n = 0%nat.
Proof.
  intros F. rewrite requeries_queries, occurrences_ids.
  induction F as [|c done Hc F IH]; [reflexivity|].
  cbn. destruct (Z.eqb_spec n (id c)) as [E|_]; [congruence|exact IH].
Qed.

(** The decimal text of a number determines the number. *)
Lemma String_inj n m : String_ n = String_ m -> n = m.
Proof.
  unfold String_. intros E. apply DecimalZ.to_int_inj.
  assert (Nn : forall z, Z.to_int z <> Decimal.Pos Decimal.Nil
                         /\ Z.to_int z <> Decimal.Neg Decimal.Nil).
  { intros [|p|p]; cbn; split; try discriminate;
      intros X; inversion X as [X'];
      exact (DecimalPos.Unsigned.to_uint_nonnil p X'). }
  destruct (Nn n) as [Pn Qn]. destruct (Nn m) as [Pm Qm].
  pose proof (NilZero.isi _ Pn Qn) as Rn.
  pose proof (NilZero.isi _ Pm Qm) as Rm.
  rewrite E in Rn. congruence.
Qed.

Lemma own_chart_test n m :
  strictEq (String_ m) (Some (String_ n)) = Z.eqb m n.
Proof.
  cbn. destruct (Z.eqb_spec m n) as [->|Ne].
  - apply String.eqb_refl.
  - apply String.eqb_neq. intros E. apply Ne. now apply String_inj.
Qed.

(** X7. A filter change that comes from chart [n], on a dashboard whose
    metadata names no immune chart and no immune field: the evaluation
    runs to its end and re-queries every chart but chart [n], each once
    and in chart order. *)
Theorem others_requeried (props : Props) (n : Z) (w : World) :
  filterImmuneSlices (metadata (dashboardInfo props)) = Some [] ->
  filterImmuneSliceFields (metadata (dashboardInfo props)) = Some [] ->
  refreshExcept props (Some (String_ n)) w =
    (Normal tt,
     logged w (map query
                 (filter (fun c => negb (Z.eqb (id c) n))
                         (getAllCharts props)))).
Proof.
  intros Hs Hf. rewrite (refreshExcept_present props _ w Hs Hf).
  do 3 f_equal. apply filter_ext. intros c.
  unfold requeried. rewrite own_chart_test. cbn.
  destruct (currentFilteredNames (filters props) (Some (String_ n)));
    cbn; now rewrite ?andb_true_r.
Qed.

End RefreshExceptMore.

(* ------------------------------------------------------------------ *)
(** ** More on the filter-change reconciler *)

Section ReconcilerMore.

Context {I : Imports}.

(** The calls of an update are re-queries of charts that pass the tests of
    [refreshExcept] for the selected key. *)
Lemma update_issued_done props w :
  exists done,
    issued (componentDidUpdate props) w = map query done
    /\ Forall (passes props
                 (changedFilterKey (appliedFilters w) (filters props))) done
    /\ incl done (getAllCharts props).
Proof.
  destruct (evaluates props (appliedFilters w)) eqn:E.
  - destruct (refreshExcept_done props
                (changedFilterKey (appliedFilters w) (filters props)) w)
      as [done [r [R [F Inc]]]].
    destruct (componentDidUpdate_busy props E R) as [_ [_ D]].
    exists done. split; [exact (issued_app _ _ _ D) | auto].
  - destruct (componentDidUpdate_idle props w E) as [_ [_ D]].
    exists []. split; [|split; [constructor | apply incl_nil_l]].
    apply issued_app. now rewrite app_nil_r.
Qed.

(** After an update that returns, the listeners are those the unload guard
    makes of the listeners from before. *)
Lemma update_listeners props w :
  fst (componentDidUpdate props w) = Normal tt ->
  listeners (snd (componentDidUpdate props w))
  = listeners (snd (onBeforeUnload
                      (hasUnsavedChanges (dashboardState props)) w)).
Proof.
  rewrite componentDidUpdate_unfold.
  destruct (evaluates props (appliedFilters w)).
  - destruct (refreshExcept_calls props
                (changedFilterKey (appliedFilters w) (filters props)) w)
      as [done [r [R _]]].
    destruct r as [[]|e].
    + assert (X : (refreshExcept props
                     (changedFilterKey (appliedFilters w) (filters props)) ;;
                   set_appliedFilters (filters props)) w
                  = (Normal tt,
                     {| appliedFilters := filters props;
                        dispatched := dispatched w ++ map query done;
                        listeners := listeners w |})).
      { rewrite (bind_normal _ _ _ R). reflexivity. }
      rewrite (bind_normal _ _ _ X). intros _.
      now destruct (hasUnsavedChanges (dashboardState props)).
    + assert (X : (refreshExcept props
                     (changedFilterKey (appliedFilters w) (filters props)) ;;
                   set_appliedFilters (filters props)) w
                  = (Throw e, logged w (map query done))).
      { rewrite (bind_throw _ _ _ R). reflexivity. }
      rewrite (bind_throw _ _ _ X). discriminate.
  - intros _. reflexivity.
Qed.

(** X8. With [filterImmuneSlices] or [filterImmuneSliceFields] absent from
    the metadata, an update that ends by a throw has changed nothing: the
    baseline, the calls made and the listeners of [window] are all as
    before the update, and the unload guard has not run.  (With a field
    absent no call on [props.actions] is reached, so the throw is that of
    the lookup.) *)
Theorem update_fails_unchanged (props : Props) (w : World) (e : Error) :
  filterImmuneSlices (metadata (dashboardInfo props)) = None
  \/ filterImmuneSliceFields (metadata (dashboardInfo props)) = None ->
  fst (componentDidUpdate props w) = Throw e ->
  snd (componentDidUpdate props w) = w.
Proof.
  intros A T.
  destruct (evaluates props (appliedFilters w)) eqn:E.
  2:{ destruct (componentDidUpdate_idle props w E) as [N _]. congruence. }
  destruct (refreshExcept_absent_quiet props
              (changedFilterKey (appliedFilters w) (filters props)) w A)
    as [r R].
  destruct r as [[]|e1].
  - assert (R' : refreshExcept props
                   (changedFilterKey (appliedFilters w) (filters props)) w
                 = (Normal tt, logged w [])) by now rewrite logged_nil.
    destruct (componentDidUpdate_busy props E R') as [N _]. congruence.
  - rewrite componentDidUpdate_unfold, E.
    assert (X : (refreshExcept props
                   (changedFilterKey (appliedFilters w) (filters props)) ;;
                 set_appliedFilters (filters props)) w = (Throw e1, w)).
    { rewrite (bind_throw _ _ _ R). reflexivity. }
    now rewrite (bind_throw _ _ _ X).
Qed.

(** X9. After an update that returns, on a listener list without
    repetition, [Dashboard.unload] is registered for [beforeunload]
    exactly when the dashboard has unsaved changes, and the list still has
    no repetition. *)
Theorem update_guard_follows_flag (props : Props) (w : World) :
  fst (componentDidUpdate props w) = Normal tt ->
  NoDup (listeners w) ->
  (In guard (listeners (snd (componentDidUpdate props w)))
   <-> hasUnsavedChanges (dashboardState props) = true)
  /\ NoDup (listeners (snd (componentDidUpdate props w))).
Proof.
  intros R N. rewrite (update_listeners props w R). unfold guard.
  destruct (hasUnsavedChanges (dashboardState props)); cbn.
  - split; [|now apply add_NoDup]. rewrite add_In. tauto.
  - split; [|now apply remove_NoDup].
    rewrite (remove_In _ _ _ N). split; [tauto|discriminate].
Qed.

(** X10. Whatever the props and the world, every call an update makes on
    [props.actions] is a forced re-query [triggerQuery(true, id)] of a
    chart of the chart set: an update attaches, detaches and logs
    nothing. *)
Theorem update_calls_are_requeries (props : Props) (w : World) :
  Forall (fun a => exists c, In c (getAllCharts props)
                             /\ a = triggerQuery true (id c))
         (issued (componentDidUpdate props) w).
Proof.
  destruct (update_issued_done props w) as [done [-> [_ Inc]]].
  apply Forall_forall. intros a Ha.
  apply in_map_iff in Ha. destruct Ha as [c [<- Hc]].
  exists c. split; [now apply Inc | reflexivity].
Qed.

(** X11. The chart a filter change comes from is not re-queried: when the
    selected key is the text of chart id [n], the update issues no
    re-query for [n], whatever the metadata. *)
Theorem own_chart_not_requeried (props : Props) (w : World) (n : Z) :
  changedFilterKey (appliedFilters w) (filters props) = Some (String_ n) ->
  requeries (issued (componentDidUpdate props) w) n = 0%nat.
Proof.
  intros K. destruct (update_issued_done props w) as [done [-> [F _]]].
  apply requeries_none. rewrite K in F.
  eapply Forall_impl; [|exact F].
  intros c [immune [fields [_ [_ Q]]]] E. unfold requeried in Q.
  rewrite E, own_chart_test, Z.eqb_refl in Q. discriminate.
Qed.

(** X12. A chart listed in [filterImmuneSlices] is never re-queried by an
    update, whichever filter changed or was removed. *)
Theorem immune_chart_not_requeried (props : Props) (w : World)
    (immune : list Z) (n : Z) :
  filterImmuneSlices (metadata (dashboardInfo props)) = Some immune ->
  In n immune ->
  requeries (issued (componentDidUpdate props) w) n = 0%nat.
Proof.
  intros Hs Hn. destruct (update_issued_done props w) as [done [-> [F _]]].
  apply requeries_none.
  eapply Forall_impl; [|exact F].
  intros c [immune' [fields [Hs' [_ Q]]]] E. unfold requeried in Q.
  assert (immune' = immune) by congruence. subst immune'.
  rewrite E, (proj2 (includesZ_In immune n) Hn) in Q.
  rewrite andb_false_r in Q. discriminate.
Qed.

(** X13. A chart whose immune fields cover every field name of the
    selected filter key is not re-queried, when that key is a non-empty
    string and has at least one field name. *)
Theorem field_immune_chart_not_requeried (props : Props) (w : World)
    (k : string) (fields : FieldMap) (immuneFields : Obj (list string))
    (n : Z) :
  changedFilterKey (appliedFilters w) (filters props) = Some k ->
  k <> "" ->
  get (filters props) k = Some fields ->
  fields <> [] ->
  filterImmuneSliceFields (metadata (dashboardInfo props)) = Some immuneFields ->
  incl (keys fields) (immuneNames immuneFields n) ->
  requeries (issued (componentDidUpdate props) w) n = 0%nat.
Proof.
  intros K Nk G Nf Hf Inc.
  destruct (update_issued_done props w) as [done [-> [F _]]].
  apply requeries_none. rewrite K in F.
  eapply Forall_impl; [|exact F].
  intros c [immune [fields' [_ [Hf' Q]]]] E.
  assert (fields' = immuneFields) by congruence. subst fields'.
  assert (N : currentFilteredNames (filters props) (Some k) = keys fields).
  { unfold currentFilteredNames. rewrite G. cbn.
    apply String.eqb_neq in Nk. now rewrite Nk. }
  unfold requeried in Q. rewrite N, E in Q.
  apply andb_true_iff in Q. destruct Q as [_ Q].
  apply orb_true_iff in Q. destruct Q as [Q|Q].
  - destruct fields; [congruence|discriminate].
  - apply existsb_exists in Q. destruct Q as [name [Hname Q]].
    apply negb_true_iff in Q.
    assert (X : includes (immuneNames immuneFields n) name = true).
    { unfold includes. apply existsb_exists. exists name.
      split; [now apply Inc | apply String.eqb_refl]. }
    unfold immuneNames in X. congruence.
Qed.

(** X14. With one of the two immune-slice fields of the metadata absent,
    an update re-queries no chart at all. *)
Theorem absent_metadata_no_requery (props : Props) (w : World) :
  filterImmuneSlices (metadata (dashboardInfo props)) = None
  \/ filterImmuneSliceFields (metadata (dashboardInfo props)) = None ->
  issued (componentDidUpdate props) w = [].
Proof.
  intros A. destruct (update_issued_done props w) as [done [-> [F _]]].
  now rewrite (absent_none_passes A F).
Qed.

(** X15. An update that returns settles: a second update with the same
    props makes no call and keeps the baseline. *)
Theorem update_twice_quiet (props : Props) (w : World) :
  fst (componentDidUpdate props w) = Normal tt ->
  issued (componentDidUpdate props) (snd (componentDidUpdate props w)) = []
  /\ appliedFilters (snd (componentDidUpdate props
                            (snd (componentDidUpdate props w))))
     = appliedFilters (snd (componentDidUpdate props w)).
Proof.
  intros R. set (w1 := snd (componentDidUpdate props w)).
  assert (E1 : evaluates props (appliedFilters w1) = false).
  { destruct (evaluates props (appliedFilters w)) eqn:E.
    - destruct (refreshExcept_calls props
                  (changedFilterKey (appliedFilters w) (filters props)) w)
        as [done [r [X _]]].
      destruct (componentDidUpdate_busy props E X) as [Rf [A _]].
      rewrite R in Rf. subst r. fold w1 in A.
      unfold evaluates. rewrite A, String.eqb_refl. cbn.
      now rewrite andb_false_r.
    - destruct (componentDidUpdate_idle props w E) as [_ [A _]].
      fold w1 in A. now rewrite A. }
  destruct (componentDidUpdate_idle props w1 E1) as [_ [A D]].
  split; [|exact A].
  apply issued_app. now rewrite app_nil_r.
Qed.

End ReconcilerMore.

(* ------------------------------------------------------------------ *)
(** ** Removed filters, and changes that are not missed *)

Section Changes.

Context {I : Imports}.

Lemma lastKey_some l :
  l <> [] -> exists k, lastKey l = Some k /\ In k l.
Proof.
  induction l as [|x l IH]; [congruence|]. intros _.
  rewrite lastKey_cons. destruct l as [|y l].
  - exists x. split; [reflexivity | now left].
  - destruct IH as [k [E Hk]]; [discriminate|].
    exists k. rewrite E. split; [reflexivity | now right].
Qed.

(** X16. When filters were only removed (no key of the current filters
    is new or changed, and the number of keys differs), with edit mode off
    and the immune-slice metadata present, the update re-queries every
    chart that is not listed in [filterImmuneSlices], each once and in
    chart order; immune fields play no part. *)
Theorem removal_requeries_all_not_immune (props : Props) (w : World)
    (immune : list Z) (immuneFields : Obj (list string)) :
  changedKeys (appliedFilters w) (filters props) = [] ->
  List.length (keys (filters props)) <> List.length (keys (appliedFilters w)) ->
  editMode (dashboardState props) = false ->
  safeStringify (appliedFilters w) <> safeStringify (filters props) ->
  filterImmuneSlices (metadata (dashboardInfo props)) = Some immune ->
  filterImmuneSliceFields (metadata (dashboardInfo props)) = Some immuneFields ->
  fst (componentDidUpdate props w) = Normal tt
  /\ issued (componentDidUpdate props) w
     = map query (filter (fun c => negb (includesZ immune (id c)))
                         (getAllCharts props)).
Proof.
  intros C L E Ne Hs Hf.
  assert (K : changedFilterKey (appliedFilters w) (filters props) = None).
  { now rewrite changedFilterKey_last, C. }
  assert (Ev : evaluates props (appliedFilters w) = true).
  { unfold evaluates. rewrite E, K.
    apply String.eqb_neq in Ne. apply Nat.eqb_neq in L.
    now rewrite Ne, L. }
  pose proof (refreshExcept_present props None w Hs Hf) as R.
  assert (Q : filter (requeried None
                        (currentFilteredNames (filters props) None)
                        immune immuneFields)
                     (getAllCharts props)
              = filter (fun c => negb (includesZ immune (id c)))
                       (getAllCharts props)).
  { apply filter_ext. intros c. unfold requeried. cbn.
    now rewrite andb_true_r. }
  rewrite Q in R. rewrite <- K in R at 1.
  destruct (componentDidUpdate_busy props Ev R) as [F [_ D]].
  split; [exact F | exact (issued_app _ _ _ D)].
Qed.

(** X17. A change is not missed: on filter states that are objects, when
    some key of the current filters is new or has a field map that is not
    structurally equal to the applied one, no filter key is the empty
    string, [__proto__] is not a new key with an empty field map, edit
    mode is off, the two filter states serialise differently and the
    immune-slice metadata is present, the update runs the per-chart
    evaluation to its end and the current filters become the baseline. *)
Theorem changed_filter_applied (props : Props) (w : World) (k : string)
    (immune : list Z) (immuneFields : Obj (list string)) :
  wfFilterState (appliedFilters w) ->
  wfFilterState (filters props) ->
  (get (appliedFilters w) "__proto__" = None ->
   get (filters props) "__proto__" <> Some []) ->
  newOrDifferent (appliedFilters w) (filters props) k ->
  Forall (fun key => key <> "") (keys (filters props)) ->
  editMode (dashboardState props) = false ->
  safeStringify (appliedFilters w) <> safeStringify (filters props) ->
  filterImmuneSlices (metadata (dashboardInfo props)) = Some immune ->
  filterImmuneSliceFields (metadata (dashboardInfo props)) = Some immuneFields ->
  fst (componentDidUpdate props w) = Normal tt
  /\ appliedFilters (snd (componentDidUpdate props w)) = filters props.
Proof.
  intros Wa Wc Hp Nk Nonempty E Ne Hs Hf.
  assert (Hk : In k (keys (filters props))
               /\ addedOrChanged (appliedFilters w) (filters props) k = true).
  { destruct Nk as [fields [G N]]. split.
    - apply get_keys. congruence.
    - apply (addedOrChanged_spec k Wa Wc Hp G). exists fields. auto. }
  destruct Hk as [Hk Ck].
  destruct (@lastKey_some (changedKeys (appliedFilters w) (filters props)))
    as [k' [L Hk']].
  { intros C. assert (X : In k (changedKeys (appliedFilters w) (filters props))).
    { apply filter_In. auto. }
    rewrite C in X. destruct X. }
  apply filter_In in Hk'. destruct Hk' as [Hk' _].
  rewrite Forall_forall in Nonempty. specialize (Nonempty _ Hk').
  assert (Ev : evaluates props (appliedFilters w) = true).
  { unfold evaluates. rewrite E, changedFilterKey_last, L. cbn.
    apply String.eqb_neq in Ne. apply String.eqb_neq in Nonempty.
    now rewrite Ne, Nonempty. }
  pose proof (refreshExcept_present props
                (changedFilterKey (appliedFilters w) (filters props)) w Hs Hf)
    as R.
  destruct (componentDidUpdate_busy props Ev R) as [F [A _]]. auto.
Qed.

End Changes.

(* ------------------------------------------------------------------ *)
(** ** Runs on concrete inputs *)

Import Sample.

(** Previous layout with chart 1 only, next layout with chart 2 only: one id
    removed and one added at once.  The two id lists have the same length,
    so nothing is emitted, where the spec asks for a detach event for 1 and
    an attach event for 2. *)
Lemma swap_of_charts_emits_nothing :
  issued (componentWillReceiveProps
            (mkProps false noImmune charts123 [] layout1)
            (mkProps false noImmune charts123 [] layout2)) (world []) = []
  /\ ~ diffEmitsBoth (mkProps false noImmune charts123 [] layout1)
                     (mkProps false noImmune charts123 [] layout2) (world []).
Proof.
  split; [reflexivity|].
  intros D. destruct (D 1%Z) as [Hd _].
  assert (X : detaches (I := imports) [] 1 = 1%nat).
  { apply Hd; cbn; intuition discriminate. }
  discriminate X.
Qed.

Lemma layout_diff_one_direction_witness :
  NoDup (chartIds layout1) /\ NoDup (chartIds layout123)
  /\ attaches (issued (componentWillReceiveProps
                         (mkProps false noImmune charts123 [] layout1)
                         (mkProps false noImmune charts123 [] layout123))
                      (world [])) 2 = 1%nat
  /\ detaches (issued (componentWillReceiveProps
                         (mkProps false noImmune charts123 [] layout1)
                         (mkProps false noImmune charts123 [] layout123))
                      (world [])) 2 = 0%nat.
Proof.
  assert (N1 : NoDup (chartIds layout1)) by distinct.
  assert (N2 : NoDup (chartIds layout123)) by distinct.
  split; [exact N1|]. split; [exact N2|].
  exact (layout_diff_one_direction (I := imports)
           (mkProps false noImmune charts123 [] layout1)
           (mkProps false noImmune charts123 [] layout123)
           (world []) N1 N2 2%Z).
Defined.

Lemma scenario_region_filter_witness :
  stringify [] <> stringify filters10
  /\ issued (componentDidUpdate (mkProps false metadata3 charts123 filters10 []))
            (world []) = [triggerQuery true 1]
  /\ requeries (issued (componentDidUpdate
                          (mkProps false metadata3 charts123 filters10 []))
                       (world [])) 1 = 1%nat
  /\ requeries (issued (componentDidUpdate
                          (mkProps false metadata3 charts123 filters10 []))
                       (world [])) 2 = 0%nat
  /\ requeries (issued (componentDidUpdate
                          (mkProps false metadata3 charts123 filters10 []))
                       (world [])) 3 = 0%nat.
Proof.
  assert (Ne : stringify [] <> stringify filters10) by (vm_compute; discriminate).
  split; [exact Ne|].
  exact (scenario_region_filter (I := imports)
           (mkProps false metadata3 charts123 filters10 []) (world [])
           eq_refl eq_refl eq_refl eq_refl eq_refl Ne).
Defined.

(** The metadata without its two immune-slice fields: the evaluation throws
    at chart 1 and the update ends by that throw, with no request made and
    the baseline as before. *)
Lemma absent_metadata_throws :
  refreshExcept (mkProps false absent charts123 filters10 []) (Some "10")
                (world [])
    = (Throw TypeError, world [])
  /\ componentDidUpdate (mkProps false absent charts123 filters10 []) (world [])
    = (Throw TypeError, world []).
Proof. split; reflexivity. Qed.

Lemma missing_entry_is_empty_witness :
  fst (refreshExcept (mkProps false metadata3 charts123 filters10 [])
                     (Some "10") (world [])) = Normal tt
  /\ (1 <= requeries (issued (refreshExcept
                                (mkProps false metadata3 charts123 filters10 [])
                                (Some "10"))
                             (world [])) 1)%nat
  /\ refreshExcept (mkProps false absent charts10_11 filters10 [])
                   (Some "10") (world [])
     = (Throw TypeError, world [])
  /\ refreshExcept (mkProps false absentFields charts123 filters10 [])
                   (Some "10") (world [])
     = (Throw TypeError, world []).
Proof.
  destruct (missing_entry_is_empty (I := imports)
              (mkProps false metadata3 charts123 filters10 []) (Some "10")
              (world [])) as [P _].
  destruct (P [3%Z] [("2", ["region"])] eq_refl eq_refl) as [C Q].
  split; [exact C|].
  split.
  { apply (Q {| id := 1 |}); [now left| reflexivity | reflexivity | reflexivity]. }
  destruct (missing_entry_is_empty (I := imports)
              (mkProps false absent charts10_11 filters10 []) (Some "10")
              (world [])) as [_ [S _]].
  split.
  { apply S; [reflexivity|].
    exists {| id := 11 |}. split; [right; now left | reflexivity]. }
  destruct (missing_entry_is_empty (I := imports)
              (mkProps false absentFields charts123 filters10 []) (Some "10")
              (world [])) as [_ [_ F]].
  apply (F [3%Z]); [reflexivity | reflexivity |].
  exists {| id := 1 |}. split; [now left | split; reflexivity].
Defined.

Lemma edit_mode_no_requery_witness :
  editMode (dashboardState (mkProps true metadata3 charts123 filters10 [])) = true
  /\ requeries (issued (componentDidUpdate
                          (mkProps true metadata3 charts123 filters10 []))
                       (world [])) 1 = 0%nat.
Proof.
  split; [reflexivity|].
  exact (edit_mode_no_requery (I := imports)
           (mkProps true metadata3 charts123 filters10 []) (world [])
           eq_refl 1%Z).
Defined.

Lemma equal_filters_no_requery_witness :
  wfFilterState filtersAB /\ wfFilterState filtersBA
  /\ sameFilterState filtersAB filtersBA
  /\ stringify filtersAB <> stringify filtersBA
  /\ requeries (issued (componentDidUpdate
                          (mkProps false metadata3 charts123 filtersBA []))
                       (world filtersAB)) 1 = 0%nat.
Proof.
  assert (Wa : wfFilterState filtersAB).
  { split; [distinct|]. repeat constructor; cbn; intuition discriminate. }
  assert (Wb : wfFilterState filtersBA).
  { split; [distinct|]. repeat constructor; cbn; intuition discriminate. }
  assert (S : sameFilterState filtersAB filtersBA).
  { intros k. cbn. destruct (String.eqb k "10"); [|exact Logic.I].
    intros f. cbn.
    destruct (String.eqb_spec f "a") as [->|Na]; [reflexivity|].
    destruct (String.eqb f "b"); reflexivity. }
  split; [exact Wa|]. split; [exact Wb|]. split; [exact S|].
  split; [vm_compute; discriminate|].
  exact (equal_filters_no_requery (I := imports)
           (mkProps false metadata3 charts123 filtersBA []) (world filtersAB)
           Wa Wb S 1%Z).
Defined.

Lemma last_filter_removed_requeries_all_witness :
  List.length (keys filters10) = 1%nat
  /\ stringify filters10 <> stringify []
  /\ issued (componentDidUpdate (mkProps false noImmune charts123 [] []))
            (world filters10)
     = [triggerQuery true 1; triggerQuery true 2; triggerQuery true 3].
Proof.
  assert (Ne : stringify filters10 <> stringify []) by (vm_compute; discriminate).
  split; [reflexivity|]. split; [exact Ne|].
  exact (proj1 (last_filter_removed_requeries_all (I := imports)
                  (mkProps false noImmune charts123 [] []) (world filters10)
                  (fields := []) eq_refl eq_refl eq_refl eq_refl eq_refl Ne)).
Defined.

Lemma at_most_one_requery_witness :
  NoDup (map id (values charts123))
  /\ (requeries (issued (componentDidUpdate
                           (mkProps false noImmune charts123 filters10 []))
                        (world [])) 2 <= 1)%nat.
Proof.
  assert (N : NoDup (map id (values charts123))) by distinct.
  split; [exact N|].
  exact (at_most_one_requery (I := imports)
           (mkProps false noImmune charts123 filters10 []) (world []) N 2%Z).
Defined.

Lemma onBeforeUnload_true_then_false_witness :
  ~ In ("beforeunload", Dashboard_unload) (listeners (world []))
  /\ (onBeforeUnload true ;; onBeforeUnload false) (world [])
     = (Normal tt, world [])
  /\ listeners (snd ((onBeforeUnload true ;; onBeforeUnload false) (world [])))
     = [].
Proof.
  assert (N : ~ In ("beforeunload", Dashboard_unload) (listeners (world [])))
    by (intros []).
  split; [exact N|].
  destruct (onBeforeUnload_true_then_false (I := imports) (world []) N)
    as [E _].
  split; [exact E|]. now rewrite E.
Defined.



(** The only filter is removed, no chart is immune, and the metadata has
    no [filterImmuneSliceFields]: the evaluation throws at chart 1 and no
    chart is re-queried. *)
Lemma removal_without_fields_throws :
  List.length (keys filters10) = 1%nat
  /\ filterImmuneSlices noImmuneNoFields = Some []
  /\ componentDidUpdate (mkProps false noImmuneNoFields charts123 [] [])
       (world filters10)
     = (Throw TypeError, world filters10)
  /\ ~ allChartsRequeried (mkProps false noImmuneNoFields charts123 [] [])
                          (world filters10).
Proof.
  split; [reflexivity|]. split; [reflexivity|]. split; [reflexivity|].
  intros H. specialize (H {| id := 1 |} (or_introl eq_refl)).
  vm_compute in H. lia.
Qed.

(** A new key is there to detect and edit mode is off, but the metadata
    has neither immune-slice field: the evaluation throws and the baseline
    stays empty. *)
Lemma baseline_stays_on_throw :
  appliedFilters (snd (componentDidUpdate
                         (mkProps false absent charts123 filters10 [])
                         (world []))) = []
  /\ ~ baselineFollowsDetection (mkProps false absent charts123 filters10 [])
                                (world []).
Proof.
  split; [reflexivity|].
  intros [H _].
  assert (X : appliedFilters
                (snd (componentDidUpdate
                        (mkProps false absent charts123 filters10 [])
                        (world []))) = filters10).
  { apply H. split; [reflexivity|]. left. exists "10".
    exists [("region", VArray [SStr "US"])].
    split; [reflexivity | exact Logic.I]. }
  discriminate X.
Qed.

(** With the empty string as the selected key the test [filterKey &&
    filters[filterKey]] is falsy: no field name is compared and chart 1,
    immune to the only field under that key, is re-queried. *)
Example empty_key_is_falsy :
  issued (componentDidUpdate
            (mkProps false
               {| filterImmuneSlices := Some [];
                  filterImmuneSliceFields := Some [("1", ["region"])] |}
               [("1", {| id := 1 |})]
               [("5", [("a", VScalar (SNum 1))]);
                ("", [("region", VArray [SStr "US"])])]
               []))
         (world [])
  = [triggerQuery true 1].
Proof. reflexivity. Qed.

(* ------------------------------------------------------------------ *)
(** ** Further runs on concrete inputs *)

Lemma layout_diff_pure_change_witness :
  NoDup (chartIds layout1) /\ NoDup (chartIds layout123)
  /\ (incl (chartIds layout1) (chartIds layout123)
      \/ incl (chartIds layout123) (chartIds layout1))
  /\ diffEmitsBoth (mkProps false noImmune charts123 [] layout1)
                   (mkProps false noImmune charts123 [] layout123) (world []).
Proof.
  assert (N1 : NoDup (chartIds layout1)) by distinct.
  assert (N2 : NoDup (chartIds layout123)) by distinct.
  assert (Inc : incl (chartIds layout1) (chartIds layout123)
                \/ incl (chartIds layout123) (chartIds layout1)).
  { left. intros c [<-|[]]. now left. }
  split; [exact N1|]. split; [exact N2|]. split; [exact Inc|].
  exact (layout_diff_pure_change (I := imports)
           (mkProps false noImmune charts123 [] layout1)
           (mkProps false noImmune charts123 [] layout123)
           (world []) N1 N2 Inc).
Defined.

Lemma layout_diff_reorder_silent_witness :
  Permutation (chartIds layout12) (chartIds layout21)
  /\ componentWillReceiveProps (mkProps false noImmune charts123 [] layout12)
       (mkProps false noImmune charts123 [] layout21) (world filters10)
     = (Normal tt, world filters10).
Proof.
  assert (P : Permutation (chartIds layout12) (chartIds layout21))
    by apply perm_swap.
  split; [exact P|].
  exact (layout_diff_reorder_silent (I := imports)
           (mkProps false noImmune charts123 [] layout12)
           (mkProps false noImmune charts123 [] layout21)
           (world filters10) P).
Defined.

Lemma onBeforeUnload_registered_iff_witness :
  NoDup (listeners (world []))
  /\ (In guard (listeners (snd (onBeforeUnload true (world []))))
      <-> true = true)
  /\ NoDup (listeners (snd (onBeforeUnload true (world []))))
  /\ forall r, r <> guard ->
       (In r (listeners (snd (onBeforeUnload true (world []))))
        <-> In r (listeners (world []))).
Proof.
  assert (N : NoDup (listeners (world []))) by constructor.
  split; [exact N|].
  exact (onBeforeUnload_registered_iff (I := imports) true (world []) N).
Defined.

Lemma onBeforeUnload_twice_witness :
  NoDup (listeners (world []))
  /\ (onBeforeUnload true ;; onBeforeUnload true) (world [])
     = onBeforeUnload true (world []).
Proof.
  assert (N : NoDup (listeners (world []))) by constructor.
  split; [exact N|].
  exact (onBeforeUnload_twice (I := imports) true (world []) N).
Defined.

Lemma others_requeried_witness :
  filterImmuneSlices noImmune = Some []
  /\ filterImmuneSliceFields noImmune = Some []
  /\ refreshExcept (mkProps false noImmune charts123 filters2 []) (Some "2")
       (world [])
     = (Normal tt,
        logged (world []) [triggerQuery true 1; triggerQuery true 3]).
Proof.
  split; [reflexivity|]. split; [reflexivity|].
  exact (others_requeried (I := imports)
           (mkProps false noImmune charts123 filters2 []) 2 (world [])
           eq_refl eq_refl).
Defined.

Lemma update_fails_unchanged_witness :
  filterImmuneSlices absent = None
  /\ fst (componentDidUpdate (mkProps false absent charts123 filters10 [])
            (world [])) = Throw TypeError
  /\ snd (componentDidUpdate (mkProps false absent charts123 filters10 [])
            (world [])) = world [].
Proof.
  split; [reflexivity|]. split; [reflexivity|].
  exact (update_fails_unchanged (I := imports)
           (mkProps false absent charts123 filters10 []) (world [])
           (e := TypeError) (or_introl eq_refl) eq_refl).
Defined.

Lemma update_guard_follows_flag_witness :
  fst (componentDidUpdate
         (unsaved (mkProps false metadata3 charts123 filters10 []))
         (world [])) = Normal tt
  /\ NoDup (listeners (world []))
  /\ (In guard (listeners (snd (componentDidUpdate
                                  (unsaved (mkProps false metadata3 charts123
                                              filters10 []))
                                  (world []))))
      <-> true = true)
  /\ NoDup (listeners (snd (componentDidUpdate
                              (unsaved (mkProps false metadata3 charts123
                                          filters10 []))
                              (world [])))).
Proof.
  assert (N : NoDup (listeners (world []))) by constructor.
  split; [reflexivity|]. split; [exact N|].
  exact (update_guard_follows_flag (I := imports)
           (unsaved (mkProps false metadata3 charts123 filters10 []))
           (world []) eq_refl N).
Defined.

Lemma own_chart_not_requeried_witness :
  changedFilterKey [] filters2 = Some (String_ 2)
  /\ requeries (issued (componentDidUpdate
                          (mkProps false noImmune charts123 filters2 []))
                       (world [])) 2 = 0%nat.
Proof.
  split; [reflexivity|].
  exact (own_chart_not_requeried (I := imports)
           (mkProps false noImmune charts123 filters2 []) (world []) 2
           eq_refl).
Defined.

Lemma immune_chart_not_requeried_witness :
  filterImmuneSlices metadata3 = Some [3%Z] /\ In 3%Z [3%Z]
  /\ requeries (issued (componentDidUpdate
                          (mkProps false metadata3 charts123 filters10 []))
                       (world [])) 3 = 0%nat.
Proof.
  assert (H3 : In 3%Z [3%Z]) by (now left).
  split; [reflexivity|]. split; [exact H3|].
  exact (immune_chart_not_requeried (I := imports)
           (mkProps false metadata3 charts123 filters10 []) (world [])
           (immune := [3%Z]) 3 eq_refl H3).
Defined.

Lemma field_immune_chart_not_requeried_witness :
  changedFilterKey [] filters10 = Some "10"
  /\ incl (keys [("region", VArray [SStr "US"])])
          (immuneNames [("2", ["region"])] 2)
  /\ requeries (issued (componentDidUpdate
                          (mkProps false metadataRegion charts123 filters10 []))
                       (world [])) 2 = 0%nat.
Proof.
  assert (Inc : incl (keys [("region", VArray [SStr "US"])])
                     (immuneNames [("2", ["region"])] 2)).
  { intros x Hx. exact Hx. }
  assert (Nk : "10" <> "") by discriminate.
  assert (Nf : [("region", VArray [SStr "US"])] <> []) by discriminate.
  split; [reflexivity|]. split; [exact Inc|].
  exact (field_immune_chart_not_requeried (I := imports)
           (mkProps false metadataRegion charts123 filters10 []) (world [])
           (k := "10") (fields := [("region", VArray [SStr "US"])])
           (immuneFields := [("2", ["region"])]) 2
           eq_refl Nk eq_refl Nf eq_refl Inc).
Defined.

Lemma absent_metadata_no_requery_witness :
  filterImmuneSliceFields absentFields = None
  /\ issued (componentDidUpdate
               (mkProps false absentFields charts123 filters10 []))
            (world []) = [].
Proof.
  split; [reflexivity|].
  exact (absent_metadata_no_requery (I := imports)
           (mkProps false absentFields charts123 filters10 []) (world [])
           (or_intror eq_refl)).
Defined.

Lemma update_twice_quiet_witness :
  fst (componentDidUpdate (mkProps false metadata3 charts123 filters10 [])
         (world [])) = Normal tt
  /\ issued (componentDidUpdate (mkProps false metadata3 charts123 filters10 []))
            (snd (componentDidUpdate
                    (mkProps false metadata3 charts123 filters10 [])
                    (world []))) = []
  /\ appliedFilters
       (snd (componentDidUpdate
               (mkProps false metadata3 charts123 filters10 [])
               (snd (componentDidUpdate
                       (mkProps false metadata3 charts123 filters10 [])
                       (world [])))))
     = filters10.
Proof.
  split; [reflexivity|].
  exact (update_twice_quiet (I := imports)
           (mkProps false metadata3 charts123 filters10 []) (world [])
           eq_refl).
Defined.

Lemma removal_requeries_all_not_immune_witness :
  changedKeys filters10_11 filters10 = []
  /\ stringify filters10_11 <> stringify filters10
  /\ fst (componentDidUpdate
            (mkProps false metadataRegion charts123 filters10 [])
            (world filters10_11)) = Normal tt
  /\ issued (componentDidUpdate
               (mkProps false metadataRegion charts123 filters10 []))
            (world filters10_11)
     = [triggerQuery true 1; triggerQuery true 2; triggerQuery true 3].
Proof.
  assert (Ne : stringify filters10_11 <> stringify filters10)
    by (vm_compute; discriminate).
  assert (L : List.length (keys filters10) <> List.length (keys filters10_11))
    by discriminate.
  split; [reflexivity|]. split; [exact Ne|].
  exact (removal_requeries_all_not_immune (I := imports)
           (mkProps false metadataRegion charts123 filters10 [])
           (world filters10_11) (immune := [])
           (immuneFields := [("2", ["region"])])
           eq_refl L eq_refl Ne eq_refl eq_refl).
Defined.

Lemma changed_filter_applied_witness :
  wfFilterState filters10
  /\ newOrDifferent [] filters10 "10"
  /\ Forall (fun key => key <> "") (keys filters10)
  /\ stringify [] <> stringify filters10
  /\ fst (componentDidUpdate (mkProps false metadata3 charts123 filters10 [])
            (world [])) = Normal tt
  /\ appliedFilters
       (snd (componentDidUpdate
               (mkProps false metadata3 charts123 filters10 []) (world [])))
     = filters10.
Proof.
  assert (Wa : wfFilterState []) by (split; constructor).
  assert (Wc : wfFilterState filters10).
  { split; [distinct|]. repeat constructor; cbn; intuition discriminate. }
  assert (Hp : get (@nil (string * FieldMap)) "__proto__" = None ->
               get filters10 "__proto__" <> Some [])
    by (intros _; discriminate).
  assert (Nk : newOrDifferent [] filters10 "10").
  { exists [("region", VArray [SStr "US"])].
    split; [reflexivity | exact Logic.I]. }
  assert (Fk : Forall (fun key => key <> "") (keys filters10))
    by (repeat constructor; discriminate).
  assert (Ne : stringify [] <> stringify filters10)
    by (vm_compute; discriminate).
  split; [exact Wc|]. split; [exact Nk|]. split; [exact Fk|].
  split; [exact Ne|].
  exact (@changed_filter_applied imports
           (mkProps false metadata3 charts123 filters10 []) (world [])
           "10" [3%Z] [("2", ["region"])]
           Wa Wc Hp Nk Fk eq_refl Ne eq_refl eq_refl).
Defined.
